(** * Synthetic TensorFlow 2 benchmark of BytePS: measurement protocol

    Shallow embedding of [example/tensorflow/synthetic_benchmark_tf2.py].

    The script is a straight-line program over external collaborators
    (BytePS, TensorFlow, NumPy, timeit).  It is embedded as a computation in
    a state-and-exception monad over a [World] that records what the script
    prints, which collaborator operations it requests and in which order,
    and the contents of the mutable list [img_secs].  What the collaborators
    answer is read from an [Env].

    Python [float] and [numpy.float64] are IEEE 754 binary64 numbers, that
    is, Rocq's primitive [float]; Python [int] is [Z]. *)

From Stdlib Require Import ZArith List String Ascii Bool Lia Permutation.
From Stdlib Require Import Floats.PrimFloat Floats.SpecFloat Floats.FloatOps.
From Stdlib Require Floats.FloatAxioms.
Import ListNotations.

Local Open Scope string_scope.
Local Open Scope list_scope.
Local Open Scope Z_scope.

(** ** Python values *)

Module Py.

(** The exceptions the script can run into. *)
Inductive exn : Type :=
| IndexError            (* gpus[i] out of range *)
| AttributeError        (* getattr(applications, name) on a missing name *)
| TypeError             (* calling an attribute that is not callable *)
| ZeroDivisionError     (* int / 0.0 *)
| OverflowError         (* int too large to convert to float *)
| InvalidArgumentError. (* tf: negative dimension in a shape *)

Inductive result (A : Type) : Type :=
| Ok (a : A)
| Raise (e : exn).
Arguments Ok {A} a.
Arguments Raise {A} e.

(** [int] to the nearest binary64 (ties to even). *)
Definition nearest_float (z : Z) : float :=
  SF2Prim (binary_normalize prec emax z 0 false).

(** [float(z)] as Python does it for an operand of [/]: the nearest
    binary64, [OverflowError] when that is not finite. *)
Definition float_of_int (z : Z) : result float :=
  let f := nearest_float z in
  if is_infinity f then Raise OverflowError else Ok f.

(** [a / b] for an [int] a and a [float] b. *)
Definition truediv (a : Z) (b : float) : result float :=
  match float_of_int a with
  | Raise e => Raise e
  | Ok fa => if (b =? 0)%float then Raise ZeroDivisionError
             else Ok (fa / b)%float
  end.

(** [l[i]]: negative indices count from the end. *)
Definition getitem {A : Type} (l : list A) (i : Z) : result A :=
  let n := Z.of_nat (List.length l) in
  let j := if i <? 0 then i + n else i in
  if (j <? 0) || (n <=? j) then Raise IndexError
  else match nth_error l (Z.to_nat j) with
       | Some a => Ok a
       | None => Raise IndexError
       end.

(** [range(n)]. *)
Definition range (n : Z) : list Z :=
  map Z.of_nat (seq 0 (Z.to_nat n)).

(** [s.startswith(p)]. *)
Definition startswith (s p : string) : bool := String.prefix p s.

(** Arguments of the [%] operator. *)
Inductive value : Type :=
| VStr (s : string)
| VInt (z : Z)
| VFloat (f : float).

(** [template % args], kept unrendered: the template as the script
    writes it and the values that fill its conversions, in order. *)
Record formatted : Type := Format { template : string; operands : list value }.

(** One call of [print(s, end=e)]. *)
Record printed : Type := Print { text : formatted; ending : string }.

Definition newline : string := String (ascii_of_nat 10) EmptyString.

End Py.
Import Py.

(** ** What the script asks of TensorFlow and BytePS *)

Inductive dtype : Type := float16 | float32 | float64 | int32 | int64.

Definition is_integer (d : dtype) : bool :=
  match d with
  | int32 | int64 => true
  | float16 | float32 | float64 => false
  end.

(** A tensor returned by [tf.random.uniform]: its shape and element type,
    the bounds of the half-open interval it was drawn from ([maxval] is
    [None] when the caller leaves the bound to the default, 1 for floating
    types), and which draw of the run produced it. *)
Record tensor : Type := Tensor {
  shape : list Z;
  elements : dtype;
  minval : Z;
  maxval : option Z;
  draw : nat
}.

Definition PhysicalDevice : Type := string.

(** A callable reached by module path and attribute name. *)
Record constructor : Type := Attr { module : string; attr : string }.

(** What [getattr(applications, name)] finds, when it finds something. *)
Inductive attribute : Type :=
| Callable (c : constructor)
| NotCallable.

Inductive Compression : Type := fp16 | none.

Inductive variables : Type := model_variables | opt_variables.

(** Collaborator operations, in program order. *)
Inductive event : Type :=
| bps_init
| set_memory_growth (gpu : PhysicalDevice) (enable : bool)
| set_visible_devices (gpu : PhysicalDevice) (device_type : string)
| environ_set (key val : string)
| build_model (c : constructor)                       (* c(weights=None) *)
| build_SGD (learning_rate : float)
| random_uniform (t : tensor)
| enter_device (device : string)                      (* with tf.device(device) *)
| forward (model : constructor) (data : tensor) (training : bool)
| sparse_categorical_crossentropy (target : tensor)
| gradient (compression : Compression)   (* DistributedGradientTape.gradient *)
| apply_gradients
| broadcast_variables (v : variables) (root_rank : Z).

(** ** Configuration and environment *)

(** The parsed command line. *)
Record Args : Type := {
  fp16_allreduce : bool;
  model : string;
  batch_size : Z;
  num_warmup_batches : Z;
  num_batches_per_iter : Z;
  num_iters : Z;
  no_cuda : bool
}.

(** [parser]'s defaults. *)
Definition default_args : Args := {|
  fp16_allreduce := false;
  model := "ResNet50";
  batch_size := 32;
  num_warmup_batches := 10;
  num_batches_per_iter := 10;
  num_iters := 10;
  no_cuda := false
|}.

(** The answers of the collaborators. *)
Record Env : Type := {
  bps_rank : Z;
  bps_size : Z;
  bps_local_rank : Z;
  (* tf.config.experimental.list_physical_devices('GPU') *)
  physical_gpus : list PhysicalDevice;
  (* the namespace tensorflow.keras.applications *)
  applications : string -> option attribute;
  (* seconds reported by the k-th call of timeit.timeit, k = 0, 1, ... *)
  timeit_elapsed : nat -> float;
  (* numpy's add.reduce over a non-empty float64 vector; the order in which
     it associates the additions is numpy's own *)
  add_reduce : list float -> float
}.

Record World : Type := {
  stdout : list printed;
  trace : list event;
  timeit_calls : nat;
  draws : nat;
  img_secs : list float
}.

Definition initial : World := {|
  stdout := [];
  trace := [];
  timeit_calls := 0;
  draws := 0;
  img_secs := []
|}.

(** ** The monad of the script *)

Definition M (A : Type) : Type := World -> World * result A.

Definition ret {A : Type} (a : A) : M A := fun w => (w, Ok a).

Definition bind {A B : Type} (m : M A) (k : A -> M B) : M B :=
  fun w => match m w with
           | (w', Ok a) => k a w'
           | (w', Raise e) => (w', Raise e)
           end.

Definition lift {A : Type} (r : result A) : M A := fun w => (w, r).

Declare Scope script_scope.
Delimit Scope script_scope with script.
Notation "x <- m ;; k" := (bind m (fun x => k))
  (at level 100, m at next level, right associativity) : script_scope.
Notation "m ;; k" := (bind m (fun _ => k))
  (at level 100, right associativity) : script_scope.
Local Open Scope script_scope.

Definition emit (e : event) : M unit := fun w =>
  ({| stdout := stdout w; trace := trace w ++ [e];
      timeit_calls := timeit_calls w; draws := draws w;
      img_secs := img_secs w |}, Ok tt).

Definition print (s : formatted) (e : string) : M unit := fun w =>
  ({| stdout := stdout w ++ [Print s e]; trace := trace w;
      timeit_calls := timeit_calls w; draws := draws w;
      img_secs := img_secs w |}, Ok tt).

(** [img_secs.append(x)]. *)
Definition img_secs_append (x : float) : M unit := fun w =>
  ({| stdout := stdout w; trace := trace w;
      timeit_calls := timeit_calls w; draws := draws w;
      img_secs := img_secs w ++ [x] |}, Ok tt).

(** [for x in l: body]. *)
Fixpoint for_each {A : Type} (l : list A) (body : A -> M unit) : M unit :=
  match l with
  | [] => ret tt
  | x :: l' => body x ;; for_each l' body
  end.

(** [number] consecutive runs of [stmt]. *)
Fixpoint times (number : nat) (stmt : M unit) : M unit :=
  match number with
  | O => ret tt
  | S n => stmt ;; times n stmt
  end.

(** ** NumPy: [np.mean] and [np.std] over a list of floats

    After [numpy/_core/_methods.py] ([_mean], [_var], [_std]) for a
    one-dimensional float64 array. *)

Module Np.
Section Reductions.
Variable add_reduce : list float -> float.

Local Open Scope float_scope.

(** [umr_sum]: over an empty array the reduction returns its identity. *)
Definition umr_sum (a : list float) : float :=
  match a with
  | [] => 0
  | _ :: _ => add_reduce a
  end.

Definition count (a : list float) : Z := Z.of_nat (List.length a).

Definition mean (a : list float) : float :=
  let rcount := count a in
  let ret := umr_sum a in
  ret / nearest_float rcount.

Definition var (ddof : Z) (a : list float) : float :=
  let rcount := count a in
  let arrmean := umr_sum a / nearest_float rcount in
  let x := map (fun v => v - arrmean) a in
  let x := map (fun v => v * v) x in
  let ret := umr_sum x in
  let rcount := Z.max (rcount - ddof) 0 in
  ret / nearest_float rcount.

(** [np.std(a, ddof=ddof)]; [ddof] defaults to 0. *)
Definition std (ddof : Z) (a : list float) : float := sqrt (var ddof a).
End Reductions.
End Np.

(** ** The script *)

(** How a model name is looked up (lines 64-70). *)
Inductive lookup : Type :=
| explicit (c : constructor)   (* importlib.import_module(module), then getattr *)
| dynamic (name : string).     (* getattr(applications, name) *)

Definition VGG19 : constructor :=
  Attr "tensorflow.keras.applications.vgg19" "VGG19".
Definition ResNet50 : constructor :=
  Attr "tensorflow.keras.applications.resnet" "ResNet50".

Definition model_lookup (name : string) : lookup :=
  if startswith name "vgg19" then explicit VGG19
  else if startswith name "resnet50" then explicit ResNet50
  else dynamic name.

Definition f1_96 : float := 0x1.f5c28f5c28f5cp+0%float. (* 1.96 *)
Definition f0_01 : float := 0x1.47ae147ae147bp-7%float.         (* 0.01 *)

Section Script.
Variable env : Env.
Variable args : Args.

(** [args.cuda = not args.no_cuda] (line 35). *)
Definition cuda : bool := negb (no_cuda args).

(** Lines 40-47. *)
Definition pin_gpu : M unit :=
  if cuda then
    let gpus := physical_gpus env in
    for_each gpus (fun gpu => emit (set_memory_growth gpu true)) ;;
    match gpus with
    | _ :: _ =>
        gpu <- lift (getitem gpus (bps_local_rank env)) ;;
        emit (set_visible_devices gpu "GPU")
    | [] => ret tt
    end
  else emit (environ_set "CUDA_VISIBLE_DEVICES" "-1").

(** [getattr(applications, name)]. *)
Definition getattr_applications (name : string) : result attribute :=
  match applications env name with
  | Some a => Ok a
  | None => Raise AttributeError
  end.

(** [f(weights=None)]. *)
Definition instantiate (f : attribute) : M constructor :=
  match f with
  | Callable c => emit (build_model c) ;; ret c
  | NotCallable => lift (Raise TypeError)
  end.

(** Lines 64-70. *)
Definition make_model : M constructor :=
  match model_lookup (model args) with
  | explicit c => instantiate (Callable c)
  | dynamic name => f <- lift (getattr_applications name) ;; instantiate f
  end.

(** [tf.random.uniform(shape, minval, maxval, dtype)]. *)
Definition tf_random_uniform (sh : list Z) (lo : Z) (hi : option Z)
    (dt : dtype) : M tensor := fun w =>
  if existsb (fun d => d <? 0) sh then (w, Raise InvalidArgumentError)
  else
    let t := Tensor sh dt lo hi (draws w) in
    ({| stdout := stdout w; trace := trace w ++ [random_uniform t];
        timeit_calls := timeit_calls w; draws := S (draws w);
        img_secs := img_secs w |}, Ok t).

(** What [benchmark_step] closes over. *)
Record Globals : Type := {
  the_model : constructor;
  data : tensor;
  target : tensor
}.

(** [benchmark_step] (lines 80-102).  The function is traced once per
    value of [first_batch]; every call requests the operations below.  The
    operations are taken to return: an exception raised inside TensorFlow
    or BytePS while a step runs is outside this embedding. *)
Definition benchmark_step (g : Globals) (first_batch : bool) : M unit :=
  let compression := if fp16_allreduce args then fp16 else none in
  emit (forward (the_model g) (data g) true) ;;
  emit (sparse_categorical_crossentropy (target g)) ;;
  emit (gradient compression) ;;
  emit apply_gradients ;;
  if first_batch then
    emit (broadcast_variables model_variables 0) ;;
    emit (broadcast_variables opt_variables 0)
  else ret tt.

(** [log] (lines 105-108). *)
Definition log (s : formatted) (nl : bool) : M unit :=
  if negb (bps_rank env =? 0) then ret tt
  else print s (if nl then newline else "").

(** [timeit.timeit(stmt, number=number)]: runs [stmt] [number] times (not
    at all when [number <= 0]) and returns the seconds that took. *)
Definition timeit (stmt : M unit) (number : Z) : M float :=
  times (Z.to_nat number) stmt ;;
  fun w =>
    ({| stdout := stdout w; trace := trace w;
        timeit_calls := S (timeit_calls w); draws := draws w;
        img_secs := img_secs w |}, Ok (timeit_elapsed env (timeit_calls w))).

Definition device : string := if cuda then "GPU" else "CPU".

(** Body of the loop of lines 127-132. *)
Definition iteration (g : Globals) (x : Z) : M unit :=
  time <- timeit (benchmark_step g false) (num_batches_per_iter args) ;;
  img_sec <- lift (truediv (batch_size args * num_batches_per_iter args) time) ;;
  log (Format "Iter #%d: %.1f img/sec per %s"
              [VInt x; VFloat img_sec; VStr device]) true ;;
  img_secs_append img_sec.

(** Lines 134-139. *)
Definition results : M unit := fun w =>
  let img_sec_mean := Np.mean (add_reduce env) (img_secs w) in
  let img_sec_conf :=
    (f1_96 * Np.std (add_reduce env) 0 (img_secs w))%float in
  (log (Format "Img/sec per %s: %.1f +-%.1f"
               [VStr device; VFloat img_sec_mean; VFloat img_sec_conf]) true ;;
   log (Format "Total img/sec on %d %s(s): %.1f +-%.1f"
               [VInt (bps_size env); VStr device;
                VFloat (nearest_float (bps_size env) * img_sec_mean)%float;
                VFloat (nearest_float (bps_size env) * img_sec_conf)%float])
       true) w.

(** Lines 117-132: warm-up and the measured phase. *)
Definition benchmark (g : Globals) : M unit :=
  emit (enter_device device) ;;
  log (Format "Running warmup..." []) true ;;
  benchmark_step g true ;;
  _ <- timeit (benchmark_step g false) (num_warmup_batches args) ;;
  log (Format "Running benchmark..." []) true ;;
  for_each (range (num_iters args)) (iteration g).

(** The whole script, from line 34 on. *)
Definition main : M unit :=
  emit bps_init ;;
  pin_gpu ;;
  m <- make_model ;;
  emit (build_SGD f0_01) ;;
  data <- tf_random_uniform [batch_size args; 224; 224; 3] 0 None float32 ;;
  target <- tf_random_uniform [batch_size args; 1] 0 (Some 999) float64 ;;
  log (Format "Model: %s" [VStr (model args)]) true ;;
  log (Format "Batch size: %d" [VInt (batch_size args)]) true ;;
  log (Format "Number of %ss: %d" [VStr device; VInt (bps_size env)]) true ;;
  let g := {| the_model := m; data := data; target := target |} in
  benchmark g ;;
  results.

End Script.

(** The run of one worker. *)
Definition run (env : Env) (args : Args) : World * result unit :=
  main env args initial.

(** ** Concrete environments *)

(** Additions associated from the left. *)
Definition add_left (a : list float) : float :=
  fold_left PrimFloat.add a 0%float.

(** Names of [tensorflow.keras.applications] that denote models. *)
Definition zoo (name : string) : option attribute :=
  if String.eqb name "ResNet50"
  then Some (Callable (Attr "tensorflow.keras.applications" "ResNet50"))
  else if String.eqb name "VGG19"
  then Some (Callable (Attr "tensorflow.keras.applications" "VGG19"))
  else if String.eqb name "resnet" then Some NotCallable
  else None.

(** A worker of a group of [n] on a machine with [gpus], every [timeit]
    taking [seconds]. *)
Definition worker (r n : Z) (gpus : list PhysicalDevice) (seconds : float)
  : Env := {|
  bps_rank := r;
  bps_size := n;
  bps_local_rank := r;
  physical_gpus := gpus;
  applications := zoo;
  timeit_elapsed := fun _ => seconds;
  add_reduce := add_left
|}.

(** * Reference definitions

    What the properties below are stated with: worlds that grew by given
    outputs and events, the events of one training step, the lines of a
    run, a pure account of the measured phase, and the statistics and name
    matching as the specification words them. *)

(** [extend out evs calls dr vs w]: [w] after printing [out], requesting
    [evs], [calls] calls of [timeit], [dr] random draws and appending [vs]
    to [img_secs]. *)
Definition extend (out : list printed) (evs : list event) (calls dr : nat)
    (vs : list float) (w : World) : World := {|
  stdout := stdout w ++ out;
  trace := trace w ++ evs;
  timeit_calls := timeit_calls w + calls;
  draws := draws w + dr;
  img_secs := img_secs w ++ vs
|}.

(** [m] takes every world to one that [R] relates to it, whatever it
    returns. *)
Definition within (R : World -> World -> Prop) {A : Type} (m : M A) : Prop :=
  forall w, R w (fst (m w)).

(** [n] copies of [l], one after the other. *)
Definition copies {A : Type} (n : nat) (l : list A) : list A :=
  List.concat (repeat l n).

(** The events of one call of [benchmark_step]. *)
Definition invocation (args : Args) (g : Globals) (first_batch : bool)
  : list event :=
  [forward (the_model g) (data g) true;
   sparse_categorical_crossentropy (target g);
   gradient (if fp16_allreduce args then fp16 else none);
   apply_gradients]
  ++ (if first_batch
      then [broadcast_variables model_variables 0;
            broadcast_variables opt_variables 0]
      else []).

(** Events that belong to a training step. *)
Definition is_step_event (e : event) : bool :=
  match e with
  | forward _ _ _ | sparse_categorical_crossentropy _ | gradient _
  | apply_gradients | broadcast_variables _ _ => true
  | _ => false
  end.

Definition is_broadcast (e : event) : bool :=
  match e with
  | broadcast_variables _ _ => true
  | _ => false
  end.

Section Reference.
Variable env : Env.
Variable args : Args.

(** What [log] lets through. *)
Definition shown (l : list printed) : list printed :=
  if bps_rank env =? 0 then l else [].

Definition line (s : formatted) : printed := Print s newline.

Definition iter_line (x : Z) (img_sec : float) : printed :=
  line (Format "Iter #%d: %.1f img/sec per %s"
               [VInt x; VFloat img_sec; VStr (device args)]).

(** The throughput of the iteration timed by the [k]-th [timeit]. *)
Definition throughput (k : nat) : result float :=
  truediv (batch_size args * num_batches_per_iter args) (timeit_elapsed env k).

(** The samples of the iterations [xs], the first of them timed by the
    [k]-th [timeit], up to the first that raises. *)
Fixpoint measure (k : nat) (xs : list Z) : list float * result unit :=
  match xs with
  | [] => ([], Ok tt)
  | _ :: xs' =>
      match throughput k with
      | Ok v => let (vs, r) := measure (S k) xs' in (v :: vs, r)
      | Raise e => ([], Raise e)
      end
  end.

(** Iterations whose steps ran: the ones that gave a sample and the one
    that raised. *)
Definition attempts (vs : list float) (r : result unit) : nat :=
  List.length vs + match r with Ok _ => 0 | Raise _ => 1 end.

Definition iter_lines (xs : list Z) (vs : list float) : list printed :=
  map (fun xv => iter_line (fst xv) (snd xv)) (combine xs vs).

(** The two summary lines over the samples [vs]. *)
Definition summary_lines (vs : list float) : list printed :=
  let img_sec_mean := Np.mean (add_reduce env) vs in
  let img_sec_conf := (f1_96 * Np.std (add_reduce env) 0 vs)%float in
  [line (Format "Img/sec per %s: %.1f +-%.1f"
                [VStr (device args); VFloat img_sec_mean; VFloat img_sec_conf]);
   line (Format "Total img/sec on %d %s(s): %.1f +-%.1f"
                [VInt (bps_size env); VStr (device args);
                 VFloat (nearest_float (bps_size env) * img_sec_mean)%float;
                 VFloat (nearest_float (bps_size env) * img_sec_conf)%float])].

Definition header_lines : list printed :=
  [line (Format "Model: %s" [VStr (model args)]);
   line (Format "Batch size: %d" [VInt (batch_size args)]);
   line (Format "Number of %ss: %d" [VStr (device args); VInt (bps_size env)])].

Definition phase_lines : list printed :=
  [line (Format "Running warmup..." []);
   line (Format "Running benchmark..." [])].

(** Lines 34-77: everything before the first [log]. *)
Definition setup : M Globals :=
  emit bps_init ;;
  pin_gpu env args ;;
  m <- make_model env args ;;
  emit (build_SGD f0_01) ;;
  data <- tf_random_uniform [batch_size args; 224; 224; 3] 0 None float32 ;;
  target <- tf_random_uniform [batch_size args; 1] 0 (Some 999) float64 ;;
  ret {| the_model := m; data := data; target := target |}.

(** The events of warm-up and measured phase when the steps of [n] timed
    iterations ran. *)
Definition benchmark_events (g : Globals) (n : nat) : list event :=
  enter_device (device args)
  :: invocation args g true
     ++ copies (Z.to_nat (num_warmup_batches args)
                + n * Z.to_nat (num_batches_per_iter args))
               (invocation args g false).

(** The lines of a run that raised ([r] an exception) or not after the
    samples [vs]. *)
Definition output (vs : list float) (r : result unit) : list printed :=
  header_lines ++ phase_lines ++ iter_lines (range (num_iters args)) vs
  ++ match r with
     | Ok _ => summary_lines vs
     | Raise _ => []
     end.

(** Lines 111-139: everything from the first [log] on. *)
Definition report (g : Globals) : M unit :=
  log env (Format "Model: %s" [VStr (model args)]) true ;;
  log env (Format "Batch size: %d" [VInt (batch_size args)]) true ;;
  log env (Format "Number of %ss: %d" [VStr (device args); VInt (bps_size env)])
      true ;;
  benchmark env args g ;;
  results env args.

(** The sample of the iteration timed by the [k]-th [timeit], when the
    division goes through. *)
Definition img_sec_at (k : nat) : float :=
  (nearest_float (batch_size args * num_batches_per_iter args)
   / timeit_elapsed env k)%float.

End Reference.

(** [w'] is [w] after requests that are no part of a training step:
    nothing printed, nothing timed, no sample taken. *)
Definition quiet (w w' : World) : Prop :=
  stdout w' = stdout w /\ timeit_calls w' = timeit_calls w /\
  img_secs w' = img_secs w /\
  exists pre, trace w' = trace w ++ pre /\
              Forall (fun e => is_step_event e = false) pre.

(** No tensor is drawn between [w] and [w']. *)
Definition undrawn (w w' : World) : Prop := draws w' = draws w.

(** ** The statistics the specification names

    Written from the words of the specification, in floating point: a sum
    is the value of additions that take every number once. *)

Module Statistics.

Local Open Scope float_scope.

(** [total xs s]: [s] is a sum of the numbers [xs], that is, the value of
    floating-point additions that take every element of [xs] exactly once,
    in some order and some grouping.  The empty sum is 0.0, and it may be a
    summand. *)
Inductive total : list float -> float -> Prop :=
| total_empty : total [] 0
| total_single (x : float) : total [x] x
| total_plus (xs ys : list float) (s t : float) :
    total xs s -> total ys t -> total (xs ++ ys) (s + t)
| total_reorder (xs ys : list float) (s : float) :
    Permutation xs ys -> total xs s -> total ys s.

Definition size (xs : list float) : float :=
  nearest_float (Z.of_nat (List.length xs)).

(** [m] is a sum of the samples divided by their number. *)
Definition arithmetic_mean (xs : list float) (m : float) : Prop :=
  exists s, total xs s /\ m = s / size xs.

Definition squared_deviations (m : float) (xs : list float) : list float :=
  map (fun x => (x - m) * (x - m)) xs.

(** [d] is the square root of a sum of the squared deviations from a mean,
    divided by the number of samples. *)
Definition population_stddev (xs : list float) (d : float) : Prop :=
  exists m q,
    arithmetic_mean xs m /\ total (squared_deviations m xs) q /\
    d = sqrt (q / size xs).

(** The same with the divisor one less (Bessel's correction). *)
Definition sample_stddev (xs : list float) (d : float) : Prop :=
  exists m q,
    arithmetic_mean xs m /\ total (squared_deviations m xs) q /\
    d = sqrt (q / nearest_float (Z.of_nat (List.length xs) - 1)).

End Statistics.

(** [f] sums: what it returns for a list is a sum of that list. *)
Definition summation (f : list float -> float) : Prop :=
  forall xs, Statistics.total xs (f xs).

(** The reading of the specification: a name matches an alias when its
    lower-case form starts with the alias. *)
Definition lower (c : ascii) : ascii :=
  let n := nat_of_ascii c in
  if ((65 <=? n) && (n <=? 90))%nat then ascii_of_nat (n + 32) else c.

Fixpoint lowercase (s : string) : string :=
  match s with
  | EmptyString => EmptyString
  | String c s' => String (lower c) (lowercase s')
  end.

Definition matches_alias (name alias : string) : bool :=
  startswith (lowercase name) alias.

(** The command line with [--no-cuda]. *)
Definition with_no_cuda (a : Args) : Args := {|
  fp16_allreduce := fp16_allreduce a;
  model := model a;
  batch_size := batch_size a;
  num_warmup_batches := num_warmup_batches a;
  num_batches_per_iter := num_batches_per_iter a;
  num_iters := num_iters a;
  no_cuda := true
|}.

(** One timed iteration of ten batches of 32. *)
Definition one_iteration (name : string) : Args := {|
  fp16_allreduce := false;
  model := name;
  batch_size := 32;
  num_warmup_batches := 10;
  num_batches_per_iter := 10;
  num_iters := 1;
  no_cuda := false
|}.

(** ** The same worker under other answers *)

(** The worker with rank [r] in a group of [n], all else equal. *)
Definition relabel (env : Env) (r n : Z) : Env := {|
  bps_rank := r;
  bps_size := n;
  bps_local_rank := bps_local_rank env;
  physical_gpus := physical_gpus env;
  applications := applications env;
  timeit_elapsed := timeit_elapsed env;
  add_reduce := add_reduce env
|}.

(** The worker whose warm-up [timeit] (the first call) reports [t]. *)
Definition with_warmup_time (env : Env) (t : float) : Env := {|
  bps_rank := bps_rank env;
  bps_size := bps_size env;
  bps_local_rank := bps_local_rank env;
  physical_gpus := physical_gpus env;
  applications := applications env;
  timeit_elapsed := fun k => match k with
                            | O => t
                            | S _ => timeit_elapsed env k
                            end;
  add_reduce := add_reduce env
|}.

(** A worker whose [k]-th [timeit] reports [seconds k]. *)
Definition timed_worker (r n : Z) (gpus : list PhysicalDevice)
    (seconds : nat -> float) : Env := {|
  bps_rank := r;
  bps_size := n;
  bps_local_rank := r;
  physical_gpus := gpus;
  applications := zoo;
  timeit_elapsed := seconds;
  add_reduce := add_left
|}.

(** Printed lines that report an iteration. *)
Definition is_iter_line (p : printed) : bool :=
  String.eqb (template (text p)) "Iter #%d: %.1f img/sec per %s".

(** [n] timed iterations of [b] batches of 32 after two warm-up batches. *)
Definition iterations_of (n b : Z) : Args := {|
  fp16_allreduce := true;
  model := "resnet50";
  batch_size := 32;
  num_warmup_batches := 2;
  num_batches_per_iter := b;
  num_iters := n;
  no_cuda := true
|}.

(** * Properties *)

(** ** Floats *)

(** A positive float is not zero. *)
Lemma positive_nonzero (t : float) :
  (0 <? t)%float = true -> (t =? 0)%float = false.
Proof.
  rewrite FloatAxioms.ltb_spec, FloatAxioms.eqb_spec.
  change (Prim2SF 0%float) with (S754_zero false).
  destruct (Prim2SF t) as [s | s | | s m e]; cbn;
    try discriminate; try (destruct s; reflexivity).
Qed.

(** ** Worlds that grow *)

Lemma extend_nil (w : World) : extend [] [] 0 0 [] w = w.
Proof.
  destruct w; unfold extend; simpl.
  now rewrite !app_nil_r, !Nat.add_0_r.
Qed.

Lemma extend_extend out evs c d vs out' evs' c' d' vs' w :
  extend out' evs' c' d' vs' (extend out evs c d vs w)
  = extend (out ++ out') (evs ++ evs') (c + c') (d + d') (vs ++ vs') w.
Proof.
  unfold extend; simpl.
  now rewrite <- !List.app_assoc, <- !Nat.add_assoc.
Qed.

Lemma extend_eq out evs c d vs out' evs' c' d' vs' w :
  out = out' -> evs = evs' -> c = c' -> d = d' -> vs = vs' ->
  extend out evs c d vs w = extend out' evs' c' d' vs' w.
Proof. now intros -> -> -> -> ->. Qed.

Lemma emit_extend e w : emit e w = (extend [] [e] 0 0 [] w, Ok tt).
Proof.
  unfold emit, extend. now rewrite !app_nil_r, !Nat.add_0_r.
Qed.

Lemma print_extend s e w :
  print s e w = (extend [Print s e] [] 0 0 [] w, Ok tt).
Proof.
  unfold print, extend. now rewrite !app_nil_r, !Nat.add_0_r.
Qed.

Lemma img_secs_append_extend x w :
  img_secs_append x w = (extend [] [] 0 0 [x] w, Ok tt).
Proof.
  unfold img_secs_append, extend. now rewrite !app_nil_r, !Nat.add_0_r.
Qed.

(** ** Relations every step of a computation keeps *)

Section Within.
Variable R : World -> World -> Prop.
Hypothesis R_refl : forall w, R w w.
Hypothesis R_trans : forall a b c, R a b -> R b c -> R a c.

Lemma within_ret {A : Type} (a : A) : within R (ret a).
Proof. intro w; apply R_refl. Qed.

Lemma within_lift {A : Type} (r : result A) : within R (lift r).
Proof. intro w; apply R_refl. Qed.

Lemma within_bind {A B : Type} (m : M A) (k : A -> M B) :
  within R m -> (forall a, within R (k a)) -> within R (bind m k).
Proof.
  intros Hm Hk w. unfold bind.
  specialize (Hm w). destruct (m w) as [w' [a | e]]; simpl in *.
  - eapply R_trans; [exact Hm | apply Hk].
  - exact Hm.
Qed.

Lemma within_for_each {A : Type} (l : list A) (body : A -> M unit) :
  (forall x, within R (body x)) -> within R (for_each l body).
Proof.
  intro Hb. induction l as [| x l IH]; simpl.
  - apply within_ret.
  - apply within_bind; [apply Hb | intros _; exact IH].
Qed.

End Within.

(** ** The script, phase by phase *)

Lemma copies_add {A : Type} (n m : nat) (l : list A) :
  copies (n + m) l = copies n l ++ copies m l.
Proof.
  unfold copies. now rewrite repeat_app, concat_app.
Qed.

Section Run.
Variable env : Env.
Variable args : Args.

Lemma shown_app l l' : shown env (l ++ l') = shown env l ++ shown env l'.
Proof. unfold shown. now destruct (bps_rank env =? 0). Qed.

Lemma shown_cons x l : shown env (x :: l) = shown env [x] ++ shown env l.
Proof. apply (shown_app [x] l). Qed.

Lemma log_extend s w :
  log env s true w = (extend (shown env [line s]) [] 0 0 [] w, Ok tt).
Proof.
  unfold log, shown. destruct (bps_rank env =? 0); simpl.
  - apply print_extend.
  - now rewrite extend_nil.
Qed.

Lemma benchmark_step_extend g b w :
  benchmark_step args g b w = (extend [] (invocation args g b) 0 0 [] w, Ok tt).
Proof.
  unfold benchmark_step, bind, invocation.
  rewrite !emit_extend, !extend_extend. destruct b.
  - now rewrite !emit_extend, !extend_extend.
  - reflexivity.
Qed.

Lemma times_step g n w :
  times n (benchmark_step args g false) w
  = (extend [] (copies n (invocation args g false)) 0 0 [] w, Ok tt).
Proof.
  revert w. induction n as [| n IH]; intro w.
  - simpl. unfold ret. now rewrite extend_nil.
  - simpl. unfold bind. rewrite benchmark_step_extend, IH, extend_extend.
    reflexivity.
Qed.

Lemma timeit_step g number w :
  timeit env (benchmark_step args g false) number w
  = (extend [] (copies (Z.to_nat number) (invocation args g false)) 1 0 [] w,
     Ok (timeit_elapsed env (timeit_calls w))).
Proof.
  unfold timeit, bind. rewrite times_step.
  unfold extend; simpl.
  now rewrite !app_nil_r, !Nat.add_0_r, Nat.add_1_r.
Qed.

Lemma iteration_extend g x w :
  iteration env args g x w
  = match throughput env args (timeit_calls w) with
    | Ok v =>
        (extend (shown env [iter_line args x v])
                (copies (Z.to_nat (num_batches_per_iter args))
                        (invocation args g false)) 1 0 [v] w, Ok tt)
    | Raise e =>
        (extend [] (copies (Z.to_nat (num_batches_per_iter args))
                           (invocation args g false)) 1 0 [] w, Raise e)
    end.
Proof.
  unfold iteration, bind. rewrite timeit_step. unfold lift, throughput.
  destruct (truediv _ _) as [v | e]; [| reflexivity].
  rewrite log_extend, img_secs_append_extend, !extend_extend. simpl.
  now rewrite !app_nil_r.
Qed.

Lemma loop_extend g xs w :
  for_each xs (iteration env args g) w
  = let (vs, r) := measure env args (timeit_calls w) xs in
    (extend (shown env (iter_lines args xs vs))
            (copies (attempts vs r * Z.to_nat (num_batches_per_iter args))
                    (invocation args g false))
            (attempts vs r) 0 vs w, r).
Proof.
  revert w. induction xs as [| x xs IH]; intro w.
  - simpl. unfold ret, shown. destruct (bps_rank env =? 0); now rewrite extend_nil.
  - simpl. unfold bind. rewrite iteration_extend.
    destruct (throughput env args (timeit_calls w)) as [v | e].
    + rewrite IH. simpl timeit_calls. rewrite Nat.add_1_r.
      destruct (measure env args (S (timeit_calls w)) xs) as [vs r].
      rewrite extend_extend. f_equal.
      unfold iter_lines; simpl combine; simpl map.
      rewrite <- shown_app. simpl app. rewrite <- copies_add.
      reflexivity.
    + simpl. unfold attempts, shown; simpl. rewrite Nat.add_0_r.
      destruct (bps_rank env =? 0); reflexivity.
Qed.

End Run.

Section Whole.
Variable env : Env.
Variable args : Args.

Let W : nat := Z.to_nat (num_warmup_batches args).
Let B : nat := Z.to_nat (num_batches_per_iter args).
Let iterations : list Z := range (num_iters args).

Lemma results_extend w :
  results env args w
  = (extend (shown env (summary_lines env args (img_secs w))) [] 0 0 [] w, Ok tt).
Proof.
  unfold results, bind. rewrite !log_extend, extend_extend.
  rewrite <- shown_app. reflexivity.
Qed.

Lemma benchmark_extend g w :
  benchmark env args g w
  = let (vs, r) := measure env args (S (timeit_calls w)) iterations in
    (extend (shown env (phase_lines ++ iter_lines args iterations vs))
            (benchmark_events args g (attempts vs r))
            (S (attempts vs r)) 0 vs w, r).
Proof.
  unfold benchmark, bind.
  rewrite emit_extend, log_extend, benchmark_step_extend, timeit_step,
    log_extend, loop_extend, !extend_extend.
  simpl timeit_calls. rewrite !Nat.add_0_r, Nat.add_1_r.
  fold iterations. destruct (measure env args _ iterations) as [vs r].
  rewrite extend_extend. f_equal. f_equal.
  - simpl. now rewrite <- !shown_app.
  - unfold benchmark_events. fold W B. simpl.
    now rewrite app_nil_r, <- copies_add.
Qed.

Lemma main_split w : main env args w = (g <- setup env args ;; report env args g) w.
Proof.
  unfold main, setup, report, bind.
  destruct (emit bps_init w) as [w1 [[] | e]]; [| reflexivity].
  destruct (pin_gpu env args w1) as [w2 [[] | e]]; [| reflexivity].
  destruct (make_model env args w2) as [w3 [m | e]]; [| reflexivity].
  destruct (emit (build_SGD f0_01) w3) as [w4 [[] | e]]; [| reflexivity].
  destruct (tf_random_uniform _ _ _ _ w4) as [w5 [d | e]]; [| reflexivity].
  destruct (tf_random_uniform _ _ _ _ w5) as [w6 [t | e]]; reflexivity.
Qed.

Lemma report_extend g w :
  report env args g w
  = let (vs, r) := measure env args (S (timeit_calls w)) iterations in
    (extend (shown env (header_lines env args ++ phase_lines
                        ++ iter_lines args iterations vs)
             ++ match r with
                | Ok _ => shown env (summary_lines env args (img_secs w ++ vs))
                | Raise _ => []
                end)
            (benchmark_events args g (attempts vs r))
            (S (attempts vs r)) 0 vs w, r).
Proof.
  unfold report, bind.
  rewrite !log_extend, benchmark_extend, !extend_extend.
  simpl timeit_calls. rewrite !Nat.add_0_r.
  destruct (measure env args _ iterations) as [vs r].
  rewrite extend_extend. destruct r as [[] | e].
  - rewrite results_extend, extend_extend. simpl img_secs.
    f_equal. f_equal.
    + f_equal. unfold header_lines.
      rewrite !shown_app, (shown_cons _ _ [_; _]), (shown_cons _ _ [_]).
      now rewrite <- !app_assoc.
    + simpl. now rewrite app_nil_r.
    + simpl. now rewrite !Nat.add_0_r.
    + simpl. now rewrite app_nil_r.
  - f_equal. apply extend_eq; try reflexivity.
    unfold header_lines.
    rewrite !shown_app, (shown_cons _ _ [_; _]), (shown_cons _ _ [_]).
    now rewrite <- !app_assoc, app_nil_r.
Qed.

End Whole.

(** ** Before the first training step *)

Lemma quiet_refl w : quiet w w.
Proof.
  repeat split. exists []. now rewrite app_nil_r.
Qed.

Lemma quiet_trans a b c : quiet a b -> quiet b c -> quiet a c.
Proof.
  intros (Ho & Hc & Hs & pre & Ht & Hp) (Ho' & Hc' & Hs' & pre' & Ht' & Hp').
  repeat split; try congruence.
  exists (pre ++ pre'). split.
  - now rewrite Ht', Ht, app_assoc.
  - apply Forall_app; now split.
Qed.

Lemma quiet_emit e : is_step_event e = false -> within quiet (emit e).
Proof.
  intros He w. repeat split. exists [e]. split; [reflexivity |].
  now constructor.
Qed.

Section Setup.
Variable env : Env.
Variable args : Args.

Lemma quiet_tf_random_uniform sh lo hi dt :
  within quiet (tf_random_uniform sh lo hi dt).
Proof.
  intro w. unfold tf_random_uniform.
  destruct (existsb _ sh); [apply quiet_refl |].
  repeat split. eexists. split; [reflexivity |]. now constructor.
Qed.

Lemma quiet_pin_gpu : within quiet (pin_gpu env args).
Proof.
  unfold pin_gpu. destruct (cuda args).
  - apply (within_bind quiet quiet_trans).
    + apply (within_for_each quiet quiet_refl quiet_trans).
      intro gpu. now apply quiet_emit.
    + intros _. destruct (physical_gpus env) as [| gpu gpus].
      * apply (within_ret quiet quiet_refl).
      * apply (within_bind quiet quiet_trans).
        -- apply (within_lift quiet quiet_refl).
        -- intro. now apply quiet_emit.
  - now apply quiet_emit.
Qed.

Lemma quiet_instantiate f : within quiet (instantiate f).
Proof.
  destruct f as [c |]; simpl.
  - apply (within_bind quiet quiet_trans).
    + now apply quiet_emit.
    + intros _. apply (within_ret quiet quiet_refl).
  - apply (within_lift quiet quiet_refl).
Qed.

Lemma quiet_make_model : within quiet (make_model env args).
Proof.
  unfold make_model. destruct (model_lookup (model args)) as [c | name].
  - apply quiet_instantiate.
  - apply (within_bind quiet quiet_trans).
    + apply (within_lift quiet quiet_refl).
    + intro f. apply quiet_instantiate.
Qed.

Lemma quiet_setup : within quiet (setup env args).
Proof.
  unfold setup.
  repeat (apply (within_bind quiet quiet_trans); [| intro]);
    try apply quiet_tf_random_uniform;
    try apply quiet_pin_gpu; try apply quiet_make_model;
    try (now apply quiet_emit).
  apply (within_ret quiet quiet_refl).
Qed.

(** What a [setup] that returns has drawn. *)
Lemma setup_globals w w0 g :
  setup env args w = (w0, Ok g) ->
  0 <= batch_size args /\
  exists k,
    data g = Tensor [batch_size args; 224; 224; 3] float32 0 None k /\
    target g = Tensor [batch_size args; 1] float64 0 (Some 999) (S k).
Proof.
  unfold setup, bind.
  destruct (emit bps_init w) as [w1 [[] | e]]; [| discriminate].
  destruct (pin_gpu env args w1) as [w2 [[] | e]]; [| discriminate].
  destruct (make_model env args w2) as [w3 [m | e]]; [| discriminate].
  destruct (emit (build_SGD f0_01) w3) as [w4 [[] | e]]; [| discriminate].
  unfold tf_random_uniform, ret. simpl existsb.
  destruct (batch_size args <? 0) eqn:Hb; [discriminate |].
  simpl. intro H. injection H as _ <-. simpl.
  split; [apply Z.ltb_ge in Hb; exact Hb |].
  eexists. split; reflexivity.
Qed.

(** Closed form of a run. *)
Lemma run_extend :
  run env args
  = match setup env args initial with
    | (w0, Raise e) => (w0, Raise e)
    | (w0, Ok g) =>
        let (vs, r) := measure env args 1 (range (num_iters args)) in
        (extend (shown env (output env args vs r))
                (benchmark_events args g (attempts vs r))
                (S (attempts vs r)) 0 vs w0, r)
    end.
Proof.
  unfold run. rewrite main_split. unfold bind.
  pose proof (quiet_setup initial) as (_ & Hc & Hs & _).
  destruct (setup env args initial) as [w0 [g | e]]; [| reflexivity].
  simpl in Hc, Hs. rewrite report_extend, Hc, Hs.
  destruct (measure env args 1 _) as [vs r].
  f_equal. apply extend_eq; try reflexivity.
  unfold output. destruct r.
  - change ([] ++ vs) with vs. now rewrite <- shown_app, <- !app_assoc.
  - now rewrite !app_nil_r.
Qed.

End Setup.

(** ** The measured phase *)

Section Measured.
Variable env : Env.
Variable args : Args.

Lemma throughput_positive k :
  is_infinity (nearest_float (batch_size args * num_batches_per_iter args)) = false ->
  (0 <? timeit_elapsed env k)%float = true ->
  throughput env args k = Ok (img_sec_at env args k).
Proof.
  intros Hfin Hpos. unfold throughput, truediv, float_of_int.
  rewrite Hfin, (positive_nonzero _ Hpos). reflexivity.
Qed.

Lemma measure_positive xs : forall k,
  is_infinity (nearest_float (batch_size args * num_batches_per_iter args)) = false ->
  (forall i, (i < List.length xs)%nat ->
             (0 <? timeit_elapsed env (k + i))%float = true) ->
  measure env args k xs
  = (map (img_sec_at env args) (seq k (List.length xs)), Ok tt).
Proof.
  induction xs as [| x xs IH]; intros k Hfin Hpos.
  - reflexivity.
  - simpl. rewrite throughput_positive; trivial.
    + rewrite IH; trivial.
      intros i Hi. replace (S k + i)%nat with (k + S i)%nat by lia.
      apply Hpos. simpl. lia.
    + rewrite <- (Nat.add_0_r k). apply Hpos. simpl. lia.
Qed.

(** Every sample that was taken is the quotient, whatever became of the
    run afterwards. *)
Lemma measure_samples xs : forall k vs r,
  measure env args k xs = (vs, r) ->
  (List.length vs <= List.length xs)%nat /\
  vs = map (img_sec_at env args) (seq k (List.length vs)) /\
  (forall u, r = Ok u -> List.length vs = List.length xs).
Proof.
  induction xs as [| x xs IH]; intros k vs r; simpl.
  - intros [= <- <-]. repeat split; trivial.
  - unfold throughput at 1, truediv, float_of_int.
    destruct (is_infinity _).
    { intros [= <- <-]. repeat split; simpl; try lia. discriminate. }
    destruct (timeit_elapsed env k =? 0)%float.
    { intros [= <- <-]. repeat split; simpl; try lia. discriminate. }
    destruct (measure env args (S k) xs) as [vs' r'] eqn:E.
    intros [= <- <-]. destruct (IH _ _ _ E) as (Hl & Hv & Hr).
    repeat split; simpl.
    + lia.
    + f_equal. exact Hv.
    + intros u Hu. f_equal. now apply (Hr u).
Qed.

Lemma length_range n : List.length (range n) = Z.to_nat n.
Proof. unfold range. now rewrite length_map, length_seq. Qed.

Lemma iter_lines_seq (n : Z) (f : nat -> float) :
  iter_lines args (range n) (map f (seq 1 (Z.to_nat n)))
  = map (fun i => iter_line args (Z.of_nat i) (f (S i))) (seq 0 (Z.to_nat n)).
Proof.
  unfold iter_lines, range. rewrite <- seq_shift, map_map.
  induction (seq 0 (Z.to_nat n)) as [| i l IH]; simpl; [reflexivity |].
  now rewrite IH.
Qed.

End Measured.

(** Adding from the left sums. *)
Lemma fold_left_total (xs : list float) : forall pre acc,
  Statistics.total pre acc ->
  Statistics.total (pre ++ xs) (fold_left PrimFloat.add xs acc).
Proof.
  induction xs as [| x xs IH]; intros pre acc H; simpl.
  - now rewrite app_nil_r.
  - replace (pre ++ x :: xs) with ((pre ++ [x]) ++ xs)
      by now rewrite <- app_assoc.
    apply IH. apply Statistics.total_plus; [exact H |].
    apply Statistics.total_single.
Qed.

Lemma add_left_summation : summation add_left.
Proof.
  intro xs. apply (fold_left_total xs [] 0%float), Statistics.total_empty.
Qed.

(** With a summation that sums, [np.mean] of a non-empty list is an
    arithmetic mean of it. *)
Lemma np_mean_arithmetic sum xs :
  summation sum -> xs <> [] ->
  Statistics.arithmetic_mean xs (Np.mean sum xs).
Proof.
  intros Hsum Hne. exists (sum xs). split; [apply Hsum |].
  destruct xs as [| x xs]; [congruence | reflexivity].
Qed.

(** And [np.std] with its default [ddof = 0] is a population standard
    deviation of it. *)
Lemma np_std_population sum xs :
  summation sum -> xs <> [] ->
  Statistics.population_stddev xs (Np.std sum 0 xs).
Proof.
  intros Hsum Hne.
  exists (Np.mean sum xs),
         (sum (Statistics.squared_deviations (Np.mean sum xs) xs)).
  split; [now apply np_mean_arithmetic |]. split; [apply Hsum |].
  destruct xs as [| x xs]; [congruence |].
  unfold Np.std, Np.var, Statistics.squared_deviations, Statistics.size,
    Np.count, Np.mean.
  rewrite map_map, Z.sub_0_r, Z.max_l by apply Nat2Z.is_nonneg.
  reflexivity.
Qed.

(** On the samples 1.0 and 3.0 the divisor shows: 1.0 is a population
    deviation, the square root of 2 a sample deviation. *)
Lemma population_and_sample_deviation :
  Statistics.population_stddev [1; 3]%float 1%float /\
  Statistics.sample_stddev [1; 3]%float (sqrt 2)%float /\
  (sqrt 2 =? 1)%float = false.
Proof.
  assert (Hm : Statistics.arithmetic_mean [1; 3]%float 2%float).
  { exists 4%float. split; [| vm_compute; reflexivity].
    change (Statistics.total ([1] ++ [3]) (1 + 3))%float.
    apply Statistics.total_plus; apply Statistics.total_single. }
  assert (Hq : Statistics.total
                 (Statistics.squared_deviations 2 [1; 3]%float) 2%float).
  { change (Statistics.total ([1] ++ [1]) (1 + 1))%float.
    apply Statistics.total_plus; apply Statistics.total_single. }
  split; [| split].
  - exists 2%float, 2%float. split; [exact Hm |]. split; [exact Hq |].
    vm_compute. reflexivity.
  - exists 2%float, 2%float. split; [exact Hm |]. split; [exact Hq |].
    vm_compute. reflexivity.
  - vm_compute. reflexivity.
Qed.

(** ** Runs that end normally *)

Lemma run_ok (env : Env) (args : Args) (w' : World) :
  run env args = (w', Ok tt) ->
  exists w0 g,
    setup env args initial = (w0, Ok g) /\
    List.length (img_secs w') = Z.to_nat (num_iters args) /\
    img_secs w' = map (img_sec_at env args)
                      (seq 1 (Z.to_nat (num_iters args))) /\
    stdout w' = shown env (output env args (img_secs w') (Ok tt)) /\
    trace w'
    = trace w0 ++ benchmark_events args g (Z.to_nat (num_iters args)).
Proof.
  rewrite run_extend.
  pose proof (quiet_setup env args initial) as (Ho & _ & Hs & _).
  destruct (setup env args initial) as [w0 [g | e]]; [| discriminate].
  simpl in Ho, Hs.
  destruct (measure env args 1 _) as [vs r] eqn:E.
  intros [= <- ->]. exists w0, g.
  destruct (measure_samples env args _ _ _ _ E) as (_ & Hv & Hl).
  specialize (Hl tt eq_refl). rewrite length_range in Hl.
  unfold extend. cbn [img_secs stdout trace]. rewrite Ho, Hs. cbn [app].
  unfold attempts. rewrite Nat.add_0_r, Hl.
  repeat split; trivial. now rewrite <- Hl.
Qed.

(** ** Names of models *)

Lemma resnet50_is_not_vgg19 (s : string) :
  startswith s "resnet50" = true -> startswith s "vgg19" = false.
Proof.
  unfold startswith. destruct s as [| c s]; [discriminate |].
  cbn [prefix].
  destruct (ascii_dec "r" c) as [<- | ]; [reflexivity | discriminate].
Qed.

Lemma instantiate_callable c w :
  instantiate (Callable c) w = (extend [] [build_model c] 0 0 [] w, Ok c).
Proof.
  unfold instantiate, bind, ret. now rewrite emit_extend.
Qed.

(** ** Devices *)

Lemma memory_growth_extend (gpus : list PhysicalDevice) w :
  for_each gpus (fun gpu => emit (set_memory_growth gpu true)) w
  = (extend [] (map (fun gpu => set_memory_growth gpu true) gpus) 0 0 [] w,
     Ok tt).
Proof.
  revert w. induction gpus as [| gpu gpus IH]; intro w; simpl.
  - unfold ret. now rewrite extend_nil.
  - unfold bind. now rewrite emit_extend, IH, extend_extend.
Qed.

Lemma getitem_beyond {A : Type} (l : list A) (i : Z) :
  Z.of_nat (List.length l) <= i -> getitem l i = Raise IndexError.
Proof.
  intro H. unfold getitem.
  assert (Hi : (i <? 0) = false) by (apply Z.ltb_ge; lia).
  rewrite Hi.
  assert (Hn : (Z.of_nat (List.length l) <=? i) = true) by (apply Z.leb_le; lia).
  rewrite Hn, orb_true_r. reflexivity.
Qed.

(** ** Draws *)

Lemma undrawn_refl w : undrawn w w.
Proof. reflexivity. Qed.

Lemma undrawn_trans a b c : undrawn a b -> undrawn b c -> undrawn a c.
Proof. unfold undrawn. congruence. Qed.

Lemma undrawn_emit e : within undrawn (emit e).
Proof. intro w. reflexivity. Qed.

Lemma undrawn_pin_gpu env args : within undrawn (pin_gpu env args).
Proof.
  unfold pin_gpu. destruct (cuda args); [| apply undrawn_emit].
  apply (within_bind undrawn undrawn_trans).
  - apply (within_for_each undrawn undrawn_refl undrawn_trans).
    intro gpu. apply undrawn_emit.
  - intros _. destruct (physical_gpus env) as [| gpu gpus].
    + apply (within_ret undrawn undrawn_refl).
    + apply (within_bind undrawn undrawn_trans).
      * apply (within_lift undrawn undrawn_refl).
      * intro. apply undrawn_emit.
Qed.

Lemma undrawn_make_model env args : within undrawn (make_model env args).
Proof.
  assert (H : forall f, within undrawn (instantiate f)).
  { intros [c |]; simpl.
    - apply (within_bind undrawn undrawn_trans); [apply undrawn_emit |].
      intros _. apply (within_ret undrawn undrawn_refl).
    - apply (within_lift undrawn undrawn_refl). }
  unfold make_model. destruct (model_lookup (model args)) as [c | name].
  - apply H.
  - apply (within_bind undrawn undrawn_trans); [| exact H].
    apply (within_lift undrawn undrawn_refl).
Qed.

(** The two tensors of a [setup] that returns are the only draws, in this
    order. *)
Lemma setup_draws env args w0 g :
  setup env args initial = (w0, Ok g) ->
  draw (data g) = 0%nat /\ draw (target g) = 1%nat /\ draws w0 = 2%nat.
Proof.
  unfold setup, bind.
  pose proof (undrawn_emit bps_init initial) as H1.
  destruct (emit bps_init initial) as [w1 [[] | e]]; [| discriminate].
  pose proof (undrawn_pin_gpu env args w1) as H2.
  destruct (pin_gpu env args w1) as [w2 [[] | e]]; [| discriminate].
  pose proof (undrawn_make_model env args w2) as H3.
  destruct (make_model env args w2) as [w3 [m | e]]; [| discriminate].
  pose proof (undrawn_emit (build_SGD f0_01) w3) as H4.
  destruct (emit (build_SGD f0_01) w3) as [w4 [[] | e]]; [| discriminate].
  unfold undrawn in *. simpl in *.
  assert (H : draws w4 = 0%nat) by congruence.
  unfold tf_random_uniform, ret. simpl existsb.
  destruct (batch_size args <? 0); [discriminate |].
  simpl. intros [= <- <-]. simpl. rewrite H. repeat split.
Qed.

(** ** Not a number *)

Lemma mul_nan (x : float) : (x * nan)%float = nan.
Proof.
  apply FloatAxioms.Prim2SF_inj. rewrite FloatAxioms.mul_spec.
  change (Prim2SF nan) with S754_nan.
  destruct (Prim2SF x) as [s | s | | s m e]; reflexivity.
Qed.

(** * The claims *)

(** C1.  When every timed iteration of the measured phase takes a positive
    time (and the set-up went through and [batch_size * num_batches_per_iter]
    is in the range of a float), the run ends normally, the samples in
    [img_secs] are, in order, [batch_size * num_batches_per_iter / time] for
    the time of that iteration, and the reporting worker logs exactly these
    values in its per-iteration lines.  With [batch_size = 32],
    [num_batches_per_iter = 10] and a time of 2.0 the value is 160.0. *)
Theorem C1_throughput_per_iteration (env : Env) (args : Args)
    (w0 : World) (g : Globals) :
  let n := Z.to_nat (num_iters args) in
  let img_sec i := img_sec_at env args (S i) in
  setup env args initial = (w0, Ok g) ->
  is_infinity (nearest_float (batch_size args * num_batches_per_iter args)) = false ->
  (forall i, (i < n)%nat -> (0 <? timeit_elapsed env (S i))%float = true) ->
  (exists w',
     run env args = (w', Ok tt) /\
     img_secs w' = map img_sec (seq 0 n) /\
     stdout w'
     = shown env
         (header_lines env args ++ phase_lines
          ++ map (fun i => iter_line args (Z.of_nat i) (img_sec i)) (seq 0 n)
          ++ summary_lines env args (map img_sec (seq 0 n)))) /\
  (batch_size args = 32 -> num_batches_per_iter args = 10 ->
   forall i, timeit_elapsed env (S i) = 2%float -> img_sec i = 160%float).
Proof.
  intros n img_sec Hsetup Hfin Hpos. split.
  - rewrite run_extend, Hsetup.
    rewrite (measure_positive env args _ 1 Hfin).
    2:{ rewrite length_range. intros i Hi. apply (Hpos i Hi). }
    rewrite length_range. fold n.
    pose proof (quiet_setup env args initial) as (Ho & _ & Hs & _).
    rewrite Hsetup in Ho, Hs. simpl in Ho, Hs.
    assert (Hv : map (img_sec_at env args) (seq 1 n) = map img_sec (seq 0 n)).
    { now rewrite <- seq_shift, map_map. }
    eexists. split; [reflexivity |]. unfold extend.
    cbn [img_secs stdout]. rewrite Ho, Hs. cbn [app].
    split; [exact Hv |].
    unfold output. f_equal. f_equal. f_equal. f_equal.
    + unfold n. rewrite iter_lines_seq. reflexivity.
    + now rewrite Hv.
  - intros Hb Hn i Ht. unfold img_sec, img_sec_at. rewrite Hb, Hn, Ht.
    reflexivity.
Qed.

(** The scenario of the specification: one iteration of ten batches of 32
    that takes two seconds yields the single sample 160.0. *)
Lemma C1_throughput_per_iteration_witness :
  exists w',
    run (worker 0 1 [] 2%float) (one_iteration "vgg19_bn") = (w', Ok tt) /\
    img_secs w' = [160%float].
Proof.
  destruct (C1_throughput_per_iteration (worker 0 1 [] 2%float)
              (one_iteration "vgg19_bn")
              (fst (setup (worker 0 1 [] 2%float) (one_iteration "vgg19_bn") initial))
              {| the_model := VGG19;
                 data := Tensor [32; 224; 224; 3] float32 0 None 0;
                 target := Tensor [32; 1] float64 0 (Some 999) 1 |})
    as [(w' & Hrun & Hsamples & _) _].
  - reflexivity.
  - reflexivity.
  - intros i _. reflexivity.
  - exists w'. split; [exact Hrun | exact Hsamples].
Defined.

(** C2.  NumPy's summation taken to sum: at the end of a run of the
    reporting worker with at least one sample, the line "Img/sec per ..."
    carries the value of [np.mean] over [img_secs], which is an arithmetic
    mean of the samples (a sum of them divided by their number), and 1.96
    times the value of [np.std], which is a population standard deviation of
    them (the divisor is the number of samples, not one less). *)
Theorem C2_mean_and_confidence (env : Env) (args : Args) (w' : World) :
  summation (add_reduce env) ->
  run env args = (w', Ok tt) ->
  bps_rank env = 0 ->
  img_secs w' <> [] ->
  exists before total_line mean deviation,
    Statistics.arithmetic_mean (img_secs w') mean /\
    Statistics.population_stddev (img_secs w') deviation /\
    mean = Np.mean (add_reduce env) (img_secs w') /\
    deviation = Np.std (add_reduce env) 0 (img_secs w') /\
    stdout w'
    = before
      ++ [line (Format "Img/sec per %s: %.1f +-%.1f"
                 [VStr (device args); VFloat mean;
                  VFloat (f1_96 * deviation)%float]);
          total_line].
Proof.
  intros Hsum Hrun Hrank Hne.
  destruct (run_ok env args w' Hrun) as (w0 & g & _ & _ & _ & Hout & _).
  rewrite Hout. unfold shown, output, summary_lines. rewrite Hrank.
  rewrite !app_assoc. eexists. eexists.
  exists (Np.mean (add_reduce env) (img_secs w')),
         (Np.std (add_reduce env) 0 (img_secs w')).
  split; [now apply np_mean_arithmetic |].
  split; [now apply np_std_population |].
  split; [reflexivity |]. split; reflexivity.
Qed.

(** Three iterations of 5, 20 and 32 seconds: the samples are 64, 16 and
    10, their mean is 30 and their squared deviations sum to 1752, a third
    of which is 584. *)
Lemma C2_mean_and_confidence_witness :
  img_secs (fst (run (timed_worker 0 1 []
                        (fun k => match k with
                                  | 1%nat => 5 | 2%nat => 20 | _ => 32
                                  end)%float)
                     (iterations_of 3 10)))
  = [64; 16; 10]%float /\
  Statistics.arithmetic_mean [64; 16; 10]%float 30%float /\
  Statistics.population_stddev [64; 16; 10]%float (sqrt 584)%float /\
  exists before total_line,
    stdout (fst (run (timed_worker 0 1 []
                        (fun k => match k with
                                  | 1%nat => 5 | 2%nat => 20 | _ => 32
                                  end)%float)
                     (iterations_of 3 10)))
    = before
      ++ [line (Format "Img/sec per %s: %.1f +-%.1f"
                 [VStr "CPU"; VFloat 30%float;
                  VFloat (f1_96 * sqrt 584)%float]);
          total_line].
Proof.
  destruct (C2_mean_and_confidence
              (timed_worker 0 1 []
                 (fun k => match k with
                           | 1%nat => 5 | 2%nat => 20 | _ => 32
                           end)%float)
              (iterations_of 3 10)
              (fst (run (timed_worker 0 1 []
                           (fun k => match k with
                                     | 1%nat => 5 | 2%nat => 20 | _ => 32
                                     end)%float)
                        (iterations_of 3 10))))
    as (before & total_line & mean & deviation
        & Hmean & Hdev & Em & Ed & Hout).
  - exact add_left_summation.
  - vm_compute. reflexivity.
  - reflexivity.
  - vm_compute. discriminate.
  - assert (Es : img_secs (fst (run (timed_worker 0 1 []
                        (fun k => match k with
                                  | 1%nat => 5 | 2%nat => 20 | _ => 32
                                  end)%float)
                     (iterations_of 3 10))) = [64; 16; 10]%float)
      by (vm_compute; reflexivity).
    rewrite Es in Hmean, Hdev, Em, Ed.
    assert (Em' : mean = 30%float) by (rewrite Em; vm_compute; reflexivity).
    assert (Ed' : deviation = sqrt 584%float)
      by (rewrite Ed; vm_compute; reflexivity).
    rewrite Em' in Hmean, Hout. rewrite Ed' in Hdev, Hout.
    split; [exact Es |]. split; [exact Hmean |]. split; [exact Hdev |].
    exists before, total_line. rewrite Hout. reflexivity.
Defined.

(** C3.  In the line "Total img/sec on ..." the reporting worker prints
    the group size times the mean and the group size times the confidence
    half-width of the line before it, whatever the group size and the
    samples. *)
Theorem C3_group_aggregate (env : Env) (args : Args) (w' : World) :
  run env args = (w', Ok tt) ->
  bps_rank env = 0 ->
  exists before mean conf,
    mean = Np.mean (add_reduce env) (img_secs w') /\
    conf = (f1_96 * Np.std (add_reduce env) 0 (img_secs w'))%float /\
    stdout w'
    = before
      ++ [line (Format "Img/sec per %s: %.1f +-%.1f"
                 [VStr (device args); VFloat mean; VFloat conf]);
          line (Format "Total img/sec on %d %s(s): %.1f +-%.1f"
                 [VInt (bps_size env); VStr (device args);
                  VFloat (nearest_float (bps_size env) * mean)%float;
                  VFloat (nearest_float (bps_size env) * conf)%float])].
Proof.
  intros Hrun Hrank.
  destruct (run_ok env args w' Hrun) as (w0 & g & _ & _ & _ & Hout & _).
  rewrite Hout. unfold shown, output, summary_lines. rewrite Hrank.
  rewrite !app_assoc. eexists. eexists. eexists.
  split; [reflexivity |]. split; reflexivity.
Qed.

Lemma C3_group_aggregate_witness :
  exists before,
    stdout (fst (run (worker 0 4 [] 2%float) (one_iteration "vgg19_bn")))
    = before
      ++ [line (Format "Img/sec per %s: %.1f +-%.1f"
                 [VStr "GPU"; VFloat 160%float; VFloat 0%float]);
          line (Format "Total img/sec on %d %s(s): %.1f +-%.1f"
                 [VInt 4; VStr "GPU"; VFloat 640%float; VFloat 0%float])].
Proof.
  destruct (C3_group_aggregate (worker 0 4 [] 2%float)
              (one_iteration "vgg19_bn")
              (fst (run (worker 0 4 [] 2%float) (one_iteration "vgg19_bn"))))
    as (before & mean & conf & Hm & Hc & Hout).
  - vm_compute. reflexivity.
  - reflexivity.
  - exists before. rewrite Hout, Hm, Hc. vm_compute. reflexivity.
Defined.

(** C4.  The events of every run are requests that are no part of a
    training step, followed either by nothing (the run stopped before
    warm-up) or by the events of [benchmark_step(first_batch=True)] and then
    of some number of [benchmark_step(first_batch=False)]; in a run that
    ends normally that number is the warm-up count plus
    [num_iters * num_batches_per_iter].  The first invocation broadcasts the
    model variables and then the optimizer variables from rank 0, and an
    invocation with [first_batch=False] broadcasts nothing. *)
Theorem C4_broadcast_in_first_step_only (env : Env) (args : Args) :
  exists pre steps,
    trace (fst (run env args)) = pre ++ steps /\
    Forall (fun e => is_step_event e = false) pre /\
    ((steps = [] /\ snd (run env args) <> Ok tt) \/
     exists g k,
       steps = invocation args g true ++ copies k (invocation args g false) /\
       (snd (run env args) = Ok tt ->
        k = (Z.to_nat (num_warmup_batches args)
             + Z.to_nat (num_iters args)
               * Z.to_nat (num_batches_per_iter args))%nat)) /\
    (forall g,
       filter is_broadcast (invocation args g true)
       = [broadcast_variables model_variables 0;
          broadcast_variables opt_variables 0]) /\
    (forall g, filter is_broadcast (invocation args g false) = []).
Proof.
  rewrite run_extend.
  pose proof (quiet_setup env args initial) as (_ & _ & _ & pre & Ht & Hpre).
  destruct (setup env args initial) as [w0 [g | e]]; simpl in Ht.
  - destruct (measure env args 1 _) as [vs r] eqn:E.
    exists (pre ++ [enter_device (device args)]).
    eexists. split; [| split; [| split; [| split]]].
    + cbn [fst extend trace]. rewrite Ht. unfold benchmark_events.
      rewrite <- app_assoc. reflexivity.
    + apply Forall_app. split; [exact Hpre |]. now constructor.
    + right. exists g. eexists. split; [reflexivity |].
      cbn [snd]. intros ->.
      destruct (measure_samples env args _ _ _ _ E) as (_ & _ & Hl).
      specialize (Hl tt eq_refl). rewrite length_range in Hl.
      unfold attempts. now rewrite Nat.add_0_r, Hl.
    + reflexivity.
    + reflexivity.
  - exists pre, []. split; [| split; [| split; [| split]]].
    + cbn [fst]. now rewrite Ht, app_nil_r.
    + exact Hpre.
    + left. split; [reflexivity | discriminate].
    + reflexivity.
    + reflexivity.
Qed.

(** C5, as the code has it.  A name that starts with "vgg19" (in this
    exact case) is built by the VGG19 constructor of the module
    [tensorflow.keras.applications.vgg19], and one that starts with
    "resnet50" by the ResNet50 constructor of
    [tensorflow.keras.applications.resnet]; so is "vgg19_bn" by VGG19.
    Every other name is looked up in [tensorflow.keras.applications]: a
    missing name raises [AttributeError] (the ModelNotFoundError of the
    specification), an attribute that cannot be called raises [TypeError],
    and a callable is what builds the model. *)
Theorem C5_model_resolution (env : Env) (args : Args) (w : World) :
  (startswith (model args) "vgg19" = true ->
   make_model env args w = (extend [] [build_model VGG19] 0 0 [] w, Ok VGG19)) /\
  (startswith (model args) "resnet50" = true ->
   make_model env args w
   = (extend [] [build_model ResNet50] 0 0 [] w, Ok ResNet50)) /\
  (startswith (model args) "vgg19" = false ->
   startswith (model args) "resnet50" = false ->
   make_model env args w
   = match applications env (model args) with
     | Some (Callable c) => (extend [] [build_model c] 0 0 [] w, Ok c)
     | Some NotCallable => (w, Raise TypeError)
     | None => (w, Raise AttributeError)
     end) /\
  model_lookup "vgg19_bn" = explicit VGG19.
Proof.
  unfold make_model, model_lookup. repeat split.
  - intros ->. apply instantiate_callable.
  - intro H. rewrite (resnet50_is_not_vgg19 _ H), H.
    apply instantiate_callable.
  - intros -> ->. unfold bind, lift, getattr_applications.
    destruct (applications env (model args)) as [[c |] |]; try reflexivity.
    apply instantiate_callable.
Qed.

(** C5, as the claim has it, fails on the default model name: "ResNet50"
    matches the alias "resnet50" when case is ignored, and the script looks
    it up in the namespace instead of taking the explicit constructor. *)
Lemma C5_case_matters :
  matches_alias (model default_args) "resnet50" = true /\
  model_lookup (model default_args) = dynamic "ResNet50" /\
  model_lookup (model default_args) <> explicit ResNet50.
Proof.
  split; [vm_compute; reflexivity |].
  split; [vm_compute; reflexivity |].
  vm_compute. discriminate.
Qed.

(** C6.  A worker whose rank is not 0 prints nothing, however its run
    ends; the worker of rank 0 that runs to the end prints the model name,
    the batch size, the number of workers, the two phase lines, one line per
    iteration and the two summary lines. *)
Theorem C6_only_rank_0_prints (env : Env) (args : Args) :
  (bps_rank env <> 0 -> stdout (fst (run env args)) = []) /\
  (bps_rank env = 0 ->
   forall w', run env args = (w', Ok tt) ->
     stdout w'
     = header_lines env args ++ phase_lines
       ++ iter_lines args (range (num_iters args)) (img_secs w')
       ++ summary_lines env args (img_secs w')).
Proof.
  split.
  - intro Hrank. rewrite run_extend.
    pose proof (quiet_setup env args initial) as (Ho & _).
    destruct (setup env args initial) as [w0 [g | e]]; simpl in Ho.
    + destruct (measure env args 1 _) as [vs r].
      cbn [fst extend stdout]. rewrite Ho. unfold shown.
      apply Z.eqb_neq in Hrank. now rewrite Hrank.
    + exact Ho.
  - intros Hrank w' Hrun.
    destruct (run_ok env args w' Hrun) as (w0 & g & _ & _ & _ & Hout & _).
    rewrite Hout. unfold shown. now rewrite Hrank.
Qed.

Lemma C6_only_rank_0_prints_witness :
  stdout (fst (run (worker 1 2 ["GPU:0"; "GPU:1"] 2%float)
                   (one_iteration "vgg19_bn"))) = [] /\
  List.length (stdout (fst (run (worker 0 2 ["GPU:0"; "GPU:1"] 2%float)
                                (one_iteration "vgg19_bn")))) = 8%nat.
Proof.
  split.
  - apply (C6_only_rank_0_prints (worker 1 2 ["GPU:0"; "GPU:1"] 2%float)
             (one_iteration "vgg19_bn")).
    discriminate.
  - destruct (C6_only_rank_0_prints (worker 0 2 ["GPU:0"; "GPU:1"] 2%float)
                (one_iteration "vgg19_bn")) as [_ H].
    rewrite (H eq_refl (fst (run (worker 0 2 ["GPU:0"; "GPU:1"] 2%float)
                                 (one_iteration "vgg19_bn")))).
    + vm_compute. reflexivity.
    + vm_compute. reflexivity.
Defined.

(** C7, as the code has it.  With the accelerator enabled and at least one
    device found, a local rank at or beyond the number of devices makes
    [gpus[bps.local_rank()]] raise [IndexError] (the DeviceAssignmentError of
    the specification) after memory growth was enabled on every device: no
    device is made visible and the run ends with that exception.  With no
    device found the script skips the assignment and raises nothing. *)
Theorem C7_device_assignment (env : Env) (args : Args) (w : World) :
  cuda args = true ->
  (physical_gpus env <> [] ->
   Z.of_nat (List.length (physical_gpus env)) <= bps_local_rank env ->
   pin_gpu env args w
   = (extend [] (map (fun gpu => set_memory_growth gpu true) (physical_gpus env))
             0 0 [] w, Raise IndexError) /\
   snd (run env args) = Raise IndexError) /\
  (physical_gpus env = [] -> pin_gpu env args w = (w, Ok tt)).
Proof.
  intro Hcuda. split.
  - intros Hne Hrank.
    assert (Hpin : forall w1,
      pin_gpu env args w1
      = (extend [] (map (fun gpu => set_memory_growth gpu true)
                        (physical_gpus env)) 0 0 [] w1, Raise IndexError)).
    { intro w1. unfold pin_gpu, bind. rewrite Hcuda, memory_growth_extend.
      pose proof (getitem_beyond (physical_gpus env) _ Hrank) as Hget.
      destruct (physical_gpus env) as [| gpu gpus]; [congruence |].
      unfold lift. now rewrite Hget. }
    split; [apply Hpin |].
    unfold run, main, bind. now rewrite emit_extend, Hpin.
  - intro Hnil. unfold pin_gpu, bind. rewrite Hcuda, Hnil. reflexivity.
Qed.

Lemma C7_device_assignment_witness :
  snd (run (worker 2 3 ["GPU:0"; "GPU:1"] 2%float) default_args)
  = Raise IndexError.
Proof.
  apply (C7_device_assignment (worker 2 3 ["GPU:0"; "GPU:1"] 2%float)
           default_args initial).
  - reflexivity.
  - discriminate.
  - vm_compute. discriminate.
Defined.

(** C7, as the claim has it, fails when no device is found: local rank 0
    is then not below the number of devices, and the run goes on to its
    end without any exception. *)
Lemma C7_no_device_no_error :
  cuda default_args = true /\
  Z.of_nat (List.length (physical_gpus (worker 0 1 [] 2%float)))
  <= bps_local_rank (worker 0 1 [] 2%float) /\
  snd (pin_gpu (worker 0 1 [] 2%float) default_args initial) = Ok tt /\
  snd (run (worker 0 1 [] 2%float) default_args) = Ok tt.
Proof.
  split; [reflexivity |].
  split; [vm_compute; discriminate |].
  split; vm_compute; reflexivity.
Qed.

(** C8, as the code has it.  A set-up that goes through has drawn exactly
    two tensors with [tf.random.uniform]: first the input batch, of shape
    [batch_size, 224, 224, 3] and element type float32 with the default
    bounds, then the label batch, of shape [batch_size, 1] and element type
    float64 with bounds 0 and 999.  The run draws no other tensor, and every
    forward pass of the run is on that input batch and every loss against
    that label batch. *)
Theorem C8_synthetic_batches (env : Env) (args : Args) (w0 : World)
    (g : Globals) :
  setup env args initial = (w0, Ok g) ->
  data g = Tensor [batch_size args; 224; 224; 3] float32 0 None 0 /\
  target g = Tensor [batch_size args; 1] float64 0 (Some 999) 1 /\
  draws (fst (run env args)) = 2%nat /\
  forall e, In e (trace (fst (run env args))) ->
    match e with
    | forward _ d _ => d = data g
    | sparse_categorical_crossentropy t => t = target g
    | _ => True
    end.
Proof.
  intro Hsetup.
  destruct (setup_globals env args _ _ _ Hsetup) as (_ & k & Hd & Ht).
  destruct (setup_draws env args _ _ Hsetup) as (Hkd & Hkt & Hdraws).
  rewrite Hd in Hkd. simpl in Hkd. subst k.
  split; [exact Hd |]. split; [exact Ht |].
  rewrite run_extend, Hsetup.
  pose proof (quiet_setup env args initial) as (_ & _ & _ & pre & Htr & Hpre).
  rewrite Hsetup in Htr. simpl in Htr.
  destruct (measure env args 1 _) as [vs r].
  cbn [fst extend draws trace]. split; [now rewrite Hdraws |].
  intros e He. rewrite Htr in He.
  apply in_app_or in He as [He | He].
  - rewrite Forall_forall in Hpre. specialize (Hpre e He).
    destruct e; try exact I; discriminate.
  - unfold benchmark_events in He.
    destruct He as [<- | He]; [exact I |].
    assert (Hin : forall b e', In e' (invocation args g b) ->
      match e' with
      | forward _ d _ => d = data g
      | sparse_categorical_crossentropy t => t = target g
      | _ => True
      end).
    { intros b e' H. unfold invocation in H.
      apply in_app_or in H as [H | H].
      - simpl in H. decompose [or] H; subst; trivial; contradiction.
      - destruct b; simpl in H; decompose [or] H; subst; trivial;
          contradiction. }
    apply in_app_or in He as [He | He]; [exact (Hin _ _ He) |].
    unfold copies in He. apply in_concat in He as (l & Hl & He).
    apply repeat_spec in Hl. subst l. exact (Hin _ _ He).
Qed.

Lemma C8_synthetic_batches_witness :
  draws (fst (run (worker 0 1 [] 2%float) default_args)) = 2%nat.
Proof.
  apply (C8_synthetic_batches (worker 0 1 [] 2%float) default_args
           (fst (setup (worker 0 1 [] 2%float) default_args initial))
           {| the_model := Attr "tensorflow.keras.applications" "ResNet50";
              data := Tensor [32; 224; 224; 3] float32 0 None 0;
              target := Tensor [32; 1] float64 0 (Some 999) 1 |}).
  vm_compute. reflexivity.
Defined.

(** C8, as the claim has it, fails on the element type: the labels are
    drawn as float64 numbers, not as integers. *)
Lemma C8_labels_are_floats :
  exists w0 g,
    setup (worker 0 1 [] 2%float) default_args initial = (w0, Ok g) /\
    elements (target g) = float64 /\
    is_integer (elements (target g)) = false.
Proof.
  eexists. eexists. split; [vm_compute; reflexivity |].
  split; reflexivity.
Qed.

(** C9, as the code has it.  The device mode is decided by the flag
    alone.  With [--no-cuda] the device is "CPU" and the script hides the
    accelerators through CUDA_VISIBLE_DEVICES; without it the device is
    "GPU", also when no accelerator is found: the script then only skips
    the device assignment.  The benchmark runs under the device so named. *)
Theorem C9_device_mode (env : Env) (args : Args) :
  cuda args = negb (no_cuda args) /\
  device args = (if no_cuda args then "CPU" else "GPU") /\
  (no_cuda args = true ->
   forall w, pin_gpu env args w
     = (extend [] [environ_set "CUDA_VISIBLE_DEVICES" "-1"] 0 0 [] w, Ok tt)) /\
  (no_cuda args = false -> physical_gpus env = [] ->
   forall w, pin_gpu env args w = (w, Ok tt)) /\
  (forall w0 g, setup env args initial = (w0, Ok g) ->
   In (enter_device (device args)) (trace (fst (run env args)))).
Proof.
  split; [reflexivity |]. split.
  { unfold device, cuda. now destruct (no_cuda args). }
  split; [| split].
  - intros H w. unfold pin_gpu, cuda. rewrite H. apply emit_extend.
  - intros H Hnil w. unfold pin_gpu, cuda, bind. rewrite H, Hnil. reflexivity.
  - intros w0 g Hsetup. rewrite run_extend, Hsetup.
    destruct (measure env args 1 _) as [vs r].
    cbn [fst extend trace]. apply in_or_app. right. now left.
Qed.

(** C9, as the claim has it, fails when the flag is absent and no
    accelerator is found: the run is under device "GPU" and differs from
    the run of the same worker with [--no-cuda]. *)
Lemma C9_no_accelerator_found :
  physical_gpus (worker 0 1 [] 2%float) = [] /\
  device default_args = "GPU" /\
  device (with_no_cuda default_args) = "CPU" /\
  run (worker 0 1 [] 2%float) default_args
  <> run (worker 0 1 [] 2%float) (with_no_cuda default_args).
Proof.
  split; [reflexivity |]. split; [reflexivity |]. split; [reflexivity |].
  intro H.
  apply (f_equal (fun r => List.length (trace (fst r)))) in H.
  vm_compute in H. discriminate H.
Qed.

(** C10.  With [num_iters = 0] (after a set-up that went through) the run
    ends normally; only the first step and the warm-up steps ran, no sample
    was taken and no per-iteration line logged, and the two summary lines
    are printed with not-a-number for the mean, the confidence half-width
    and their multiples by the group size. *)
Theorem C10_no_iterations (env : Env) (args : Args) (w0 : World)
    (g : Globals) :
  num_iters args = 0 ->
  setup env args initial = (w0, Ok g) ->
  is_nan (Np.mean (add_reduce env) []) = true /\
  is_nan (f1_96 * Np.std (add_reduce env) 0 [])%float = true /\
  exists w',
    run env args = (w', Ok tt) /\
    img_secs w' = [] /\
    trace w'
    = trace w0
      ++ enter_device (device args)
         :: invocation args g true
         ++ copies (Z.to_nat (num_warmup_batches args))
                   (invocation args g false) /\
    stdout w'
    = shown env
        (header_lines env args ++ phase_lines
         ++ [line (Format "Img/sec per %s: %.1f +-%.1f"
                     [VStr (device args); VFloat nan; VFloat nan]);
             line (Format "Total img/sec on %d %s(s): %.1f +-%.1f"
                     [VInt (bps_size env); VStr (device args);
                      VFloat nan; VFloat nan])]).
Proof.
  intros Hn Hsetup.
  split; [reflexivity |]. split; [reflexivity |].
  rewrite run_extend, Hsetup, Hn.
  pose proof (quiet_setup env args initial) as (Ho & _ & Hs & _).
  rewrite Hsetup in Ho, Hs. simpl in Ho, Hs.
  eexists. split; [reflexivity |].
  cbn [measure range Z.to_nat seq map attempts List.length Nat.add].
  unfold extend. cbn [img_secs trace stdout]. rewrite Ho, Hs.
  split; [reflexivity |]. split.
  - unfold benchmark_events. now rewrite Nat.mul_0_l, Nat.add_0_r.
  - unfold output, summary_lines, iter_lines.
    rewrite combine_nil. cbn [map app].
    change (Np.mean (add_reduce env) []) with nan.
    change (f1_96 * Np.std (add_reduce env) 0 [])%float with nan.
    now rewrite mul_nan.
Qed.

Lemma C10_no_iterations_witness :
  exists w',
    run (worker 0 1 [] 2%float) (with_no_cuda {|
      fp16_allreduce := false; model := "VGG19"; batch_size := 32;
      num_warmup_batches := 2; num_batches_per_iter := 10; num_iters := 0;
      no_cuda := false |}) = (w', Ok tt) /\
    img_secs w' = [].
Proof.
  destruct (C10_no_iterations (worker 0 1 [] 2%float) (with_no_cuda {|
      fp16_allreduce := false; model := "VGG19"; batch_size := 32;
      num_warmup_batches := 2; num_batches_per_iter := 10; num_iters := 0;
      no_cuda := false |})
      (fst (setup (worker 0 1 [] 2%float) (with_no_cuda {|
         fp16_allreduce := false; model := "VGG19"; batch_size := 32;
         num_warmup_batches := 2; num_batches_per_iter := 10; num_iters := 0;
         no_cuda := false |}) initial))
      {| the_model := Attr "tensorflow.keras.applications" "VGG19";
         data := Tensor [32; 224; 224; 3] float32 0 None 0;
         target := Tensor [32; 1] float64 0 (Some 999) 1 |})
    as (_ & _ & w' & Hrun & Hs & _).
  - reflexivity.
  - vm_compute. reflexivity.
  - exists w'. split; [exact Hrun | exact Hs].
Defined.

(** * Further properties of the script *)

(** ** Helpers *)

Lemma getitem_within {A : Type} (l : list A) (i : Z) (a : A) :
  0 <= i -> nth_error l (Z.to_nat i) = Some a -> getitem l i = Ok a.
Proof.
  intros Hi Hnth. unfold getitem.
  assert (Hlt : (Z.to_nat i < List.length l)%nat).
  { apply nth_error_Some. congruence. }
  assert (H0 : (i <? 0) = false) by (apply Z.ltb_ge; lia).
  assert (Hn : (Z.of_nat (List.length l) <=? i) = false)
    by (apply Z.leb_gt; lia).
  rewrite H0, H0, Hn, Hnth. reflexivity.
Qed.

Lemma in_copies {A : Type} (n : nat) (l : list A) (x : A) :
  In x (copies n l) -> In x l.
Proof.
  unfold copies. intro H. apply in_concat in H as (l' & Hl & Hx).
  apply repeat_spec in Hl. now subst l'.
Qed.

(** The trace of any run: requests outside the training step, then the
    first step and further steps, if warm-up was reached. *)
Lemma run_trace_shape env args :
  exists pre steps,
    trace (fst (run env args)) = pre ++ steps /\
    Forall (fun e => is_step_event e = false) pre /\
    (steps = [] \/
     exists g k,
       steps = invocation args g true ++ copies k (invocation args g false)).
Proof.
  rewrite run_extend.
  pose proof (quiet_setup env args initial) as (_ & _ & _ & pre & Ht & Hpre).
  destruct (setup env args initial) as [w0 [g | e]]; simpl in Ht.
  - destruct (measure env args 1 _) as [vs r].
    exists (pre ++ [enter_device (device args)]). eexists.
    split; [| split].
    + cbn [fst extend trace]. rewrite Ht. unfold benchmark_events.
      rewrite <- app_assoc. reflexivity.
    + apply Forall_app. split; [exact Hpre | now constructor].
    + right. exists g. eexists. reflexivity.
  - exists pre, []. split; [| split].
    + cbn [fst]. now rewrite Ht, app_nil_r.
    + exact Hpre.
    + now left.
Qed.

(** ** Device assignment *)

(** X1.  With the accelerator enabled and a local rank that indexes a found
    device, the script enables memory growth on every found device, in the
    order found, and only then restricts visibility to the one device at
    index [local_rank]; nothing is raised. *)
Theorem X1_pin_gpu_selects_local_rank (env : Env) (args : Args) (w : World)
    (gpu : PhysicalDevice) :
  cuda args = true ->
  0 <= bps_local_rank env ->
  nth_error (physical_gpus env) (Z.to_nat (bps_local_rank env)) = Some gpu ->
  pin_gpu env args w
  = (extend []
       (map (fun g => set_memory_growth g true) (physical_gpus env)
        ++ [set_visible_devices gpu "GPU"]) 0 0 [] w, Ok tt).
Proof.
  intros Hcuda Hrank Hnth. unfold pin_gpu, bind.
  rewrite Hcuda, memory_growth_extend.
  pose proof (getitem_within _ _ _ Hrank Hnth) as Hget.
  destruct (physical_gpus env) as [| g0 gpus] eqn:Hg.
  - destruct (Z.to_nat (bps_local_rank env)); discriminate.
  - unfold lift. rewrite Hget, emit_extend, extend_extend. reflexivity.
Qed.

Lemma X1_pin_gpu_selects_local_rank_witness :
  trace (fst (pin_gpu (worker 1 2 ["GPU:0"; "GPU:1"] 2%float) default_args
                initial))
  = [set_memory_growth "GPU:0" true; set_memory_growth "GPU:1" true;
     set_visible_devices "GPU:1" "GPU"].
Proof.
  rewrite (X1_pin_gpu_selects_local_rank
             (worker 1 2 ["GPU:0"; "GPU:1"] 2%float) default_args initial
             "GPU:1").
  - reflexivity.
  - reflexivity.
  - vm_compute. discriminate.
  - reflexivity.
Defined.

(** ** Errors *)



Lemma measure_stops_at_zero env args xs : forall k j,
  is_infinity (nearest_float (batch_size args * num_batches_per_iter args)) = false ->
  (j < List.length xs)%nat ->
  (forall i, (i < j)%nat -> (0 <? timeit_elapsed env (k + i))%float = true) ->
  (timeit_elapsed env (k + j) =? 0)%float = true ->
  measure env args k xs
  = (map (img_sec_at env args) (seq k j), Raise ZeroDivisionError).
Proof.
  induction xs as [| x xs IH]; intros k j Hfin Hj Hpos Hzero; simpl in Hj.
  - lia.
  - destruct j as [| j].
    + simpl. unfold throughput, truediv, float_of_int.
      rewrite Nat.add_0_r in Hzero. now rewrite Hfin, Hzero.
    + simpl. rewrite throughput_positive; trivial.
      * rewrite (IH (S k) j); trivial.
        -- lia.
        -- intros i Hi. replace (S k + i)%nat with (k + S i)%nat by lia.
           apply Hpos. lia.
        -- now replace (S k + j)%nat with (k + S j)%nat by lia.
      * rewrite <- (Nat.add_0_r k). apply Hpos. lia.
Qed.

Lemma combine_seq_prefix {A B : Type} (f : nat -> A) (h : nat -> B) :
  forall j n a, (j <= n)%nat ->
  combine (map f (seq a n)) (map h (seq a j))
  = map (fun i => (f i, h i)) (seq a j).
Proof.
  induction j as [| j IH]; intros n a Hle.
  - simpl. now rewrite combine_nil.
  - destruct n as [| n]; [lia |]. simpl. f_equal. apply IH. lia.
Qed.

Lemma iter_lines_prefix args (n : Z) (j : nat) (f : nat -> float) :
  (j <= Z.to_nat n)%nat ->
  iter_lines args (range n) (map f (seq 1 j))
  = map (fun i => iter_line args (Z.of_nat i) (f (S i))) (seq 0 j).
Proof.
  intro Hle. unfold iter_lines, range.
  rewrite <- seq_shift, map_map.
  rewrite (combine_seq_prefix Z.of_nat (fun i => f (S i)) j _ 0 Hle).
  now rewrite map_map.
Qed.

(** X3.  When the timed iteration number [j] (from 0) reports an elapsed
    time of zero after iterations of positive time, the run ends in
    [ZeroDivisionError] at line 130: the samples of the [j] iterations
    before are in [img_secs] and logged, the steps of iteration [j] have
    run, and no summary line is printed. *)
Theorem X3_zero_elapsed_time_stops_the_run (env : Env) (args : Args)
    (w0 : World) (g : Globals) (j : nat) :
  let img_sec i := img_sec_at env args (S i) in
  setup env args initial = (w0, Ok g) ->
  is_infinity (nearest_float (batch_size args * num_batches_per_iter args)) = false ->
  (j < Z.to_nat (num_iters args))%nat ->
  (forall i, (i < j)%nat -> (0 <? timeit_elapsed env (S i))%float = true) ->
  (timeit_elapsed env (S j) =? 0)%float = true ->
  exists w',
    run env args = (w', Raise ZeroDivisionError) /\
    img_secs w' = map img_sec (seq 0 j) /\
    stdout w'
    = shown env
        (header_lines env args ++ phase_lines
         ++ map (fun i => iter_line args (Z.of_nat i) (img_sec i)) (seq 0 j)) /\
    trace w' = trace w0 ++ benchmark_events args g (S j).
Proof.
  intros img_sec Hsetup Hfin Hj Hpos Hzero.
  rewrite run_extend, Hsetup.
  rewrite (measure_stops_at_zero env args _ 1 j Hfin); trivial.
  2:{ now rewrite length_range. }
  pose proof (quiet_setup env args initial) as (Ho & _ & Hs & _).
  rewrite Hsetup in Ho, Hs. simpl in Ho, Hs.
  assert (Hv : map (img_sec_at env args) (seq 1 j) = map img_sec (seq 0 j)).
  { now rewrite <- seq_shift, map_map. }
  eexists. split; [reflexivity |]. unfold extend.
  cbn [img_secs stdout trace]. rewrite Ho, Hs. cbn [app].
  split; [exact Hv |]. split.
  - unfold output. rewrite app_nil_r, iter_lines_prefix by lia. reflexivity.
  - unfold attempts. rewrite length_map, length_seq.
    now replace (j + 1)%nat with (S j) by lia.
Qed.

Lemma X3_zero_elapsed_time_stops_the_run_witness :
  exists w',
    run (timed_worker 0 1 [] (fun k => match k with 2%nat => 0 | _ => 2 end)%float)
        (iterations_of 3 10)
    = (w', Raise ZeroDivisionError) /\
    img_secs w' = [160%float].
Proof.
  destruct (X3_zero_elapsed_time_stops_the_run
              (timed_worker 0 1 [] (fun k => match k with 2%nat => 0 | _ => 2 end)%float)
              (iterations_of 3 10)
              (fst (setup (timed_worker 0 1 [] (fun _ => 2%float))
                          (iterations_of 3 10) initial))
              {| the_model := ResNet50;
                 data := Tensor [32; 224; 224; 3] float32 0 None 0;
                 target := Tensor [32; 1] float64 0 (Some 999) 1 |}
              1%nat)
    as (w' & Hrun & Hs & _).
  - vm_compute. reflexivity.
  - vm_compute. reflexivity.
  - vm_compute. lia.
  - intros i Hi. assert (i = 0%nat) as -> by lia. vm_compute. reflexivity.
  - vm_compute. reflexivity.
  - exists w'. split; [exact Hrun |]. rewrite Hs. vm_compute. reflexivity.
Defined.

(** ** What the output does not depend on *)

Lemma measure_after_warmup env args t xs : forall k,
  measure (with_warmup_time env t) args (S k) xs = measure env args (S k) xs.
Proof.
  induction xs as [| x xs IH]; intro k; simpl; [reflexivity |].
  rewrite IH. reflexivity.
Qed.

(** X4.  The time of the warm-up [timeit] (lines 121-122) is discarded:
    whatever it is, zero or not a number included, the whole run — what is
    printed, requested, sampled and raised — is the same. *)
Theorem X4_warmup_time_is_discarded (env : Env) (args : Args) (t : float) :
  run (with_warmup_time env t) args = run env args.
Proof.
  rewrite !run_extend.
  change (setup (with_warmup_time env t) args) with (setup env args).
  destruct (setup env args initial) as [w0 [g | e]]; [| reflexivity].
  rewrite measure_after_warmup. reflexivity.
Qed.

Lemma measure_relabel env args r n xs : forall k,
  measure (relabel env r n) args k xs = measure env args k xs.
Proof.
  induction xs as [| x xs IH]; intro k; simpl; [reflexivity |].
  rewrite IH. reflexivity.
Qed.

(** X5.  Rank and group size decide only what is printed: a worker of any
    rank in a group of any size requests the same operations in the same
    order, takes the same samples, calls [timeit] as often and ends the same
    way as the reporting worker would in its place. *)
Theorem X5_rank_and_size_only_affect_printing (env : Env) (args : Args)
    (r n : Z) :
  snd (run (relabel env r n) args) = snd (run env args) /\
  trace (fst (run (relabel env r n) args)) = trace (fst (run env args)) /\
  img_secs (fst (run (relabel env r n) args)) = img_secs (fst (run env args)) /\
  timeit_calls (fst (run (relabel env r n) args))
  = timeit_calls (fst (run env args)) /\
  draws (fst (run (relabel env r n) args)) = draws (fst (run env args)).
Proof.
  rewrite !run_extend.
  change (setup (relabel env r n) args) with (setup env args).
  destruct (setup env args initial) as [w0 [g | e]].
  - rewrite measure_relabel.
    destruct (measure env args 1 _) as [vs res]. repeat split.
  - repeat split.
Qed.

(** ** Inside the training steps *)

(** X6.  Every gradient of a run, in the first step, in warm-up and in the
    measured phase, is taken through the distributed tape with the
    compression the flag [--fp16-allreduce] selects: fp16 when it is given,
    none otherwise. *)
Theorem X6_compression_follows_the_flag (env : Env) (args : Args)
    (c : Compression) :
  In (gradient c) (trace (fst (run env args))) ->
  c = if fp16_allreduce args then fp16 else none.
Proof.
  destruct (run_trace_shape env args) as (pre & steps & -> & Hpre & Hsteps).
  intro Hin. apply in_app_or in Hin as [Hin | Hin].
  - rewrite Forall_forall in Hpre. specialize (Hpre _ Hin). discriminate.
  - assert (Hinv : forall g b, In (gradient c) (invocation args g b) ->
                   c = if fp16_allreduce args then fp16 else none).
    { intros g b H. unfold invocation in H.
      apply in_app_or in H as [H | H].
      - simpl in H. decompose [or] H; try discriminate; try contradiction.
        congruence.
      - destruct b; simpl in H; decompose [or] H; try discriminate;
          contradiction. }
    destruct Hsteps as [-> | (g & k & ->)]; [contradiction |].
    apply in_app_or in Hin as [Hin | Hin].
    + exact (Hinv _ _ Hin).
    + exact (Hinv _ _ (in_copies _ _ _ Hin)).
Qed.

Lemma X6_compression_follows_the_flag_witness :
  In (gradient fp16)
     (trace (fst (run (worker 3 4 [] 2%float) (iterations_of 1 2)))) /\
  fp16 = if fp16_allreduce (iterations_of 1 2) then fp16 else none.
Proof.
  assert (H : In (gradient fp16)
                 (trace (fst (run (worker 3 4 [] 2%float) (iterations_of 1 2))))).
  { vm_compute. do 9 right. left. reflexivity. }
  split; [exact H |].
  exact (X6_compression_follows_the_flag (worker 3 4 [] 2%float)
           (iterations_of 1 2) fp16 H).
Defined.

(** X7.  A broadcast of variables is always from root rank 0 and never
    comes before the optimizer has applied gradients: wherever the trace of
    a run has a broadcast, an [apply_gradients] stands earlier in it
    (lines 94-102). *)
Theorem X7_broadcast_after_first_update (env : Env) (args : Args)
    (i : nat) (v : variables) (root : Z) :
  nth_error (trace (fst (run env args))) i = Some (broadcast_variables v root) ->
  root = 0 /\
  exists j, (j < i)%nat /\
            nth_error (trace (fst (run env args))) j = Some apply_gradients.
Proof.
  destruct (run_trace_shape env args) as (pre & steps & -> & Hpre & Hsteps).
  intro Hnth.
  destruct (Nat.lt_ge_cases i (List.length pre)) as [Hlt | Hge].
  { rewrite nth_error_app1 in Hnth by exact Hlt.
    apply nth_error_In in Hnth. rewrite Forall_forall in Hpre.
    specialize (Hpre _ Hnth). discriminate. }
  rewrite nth_error_app2 in Hnth by exact Hge.
  destruct Hsteps as [-> | (g & k & ->)].
  { destruct (i - List.length pre)%nat; discriminate. }
  remember (i - List.length pre)%nat as d eqn:Hd.
  assert (Hcase : (d = 4 \/ d = 5)%nat /\ root = 0).
  { do 6 (destruct d as [| d];
          [simpl in Hnth;
           first [discriminate Hnth
                 | injection Hnth as _ <-; split; [lia | reflexivity]] |]).
    exfalso.
    change (nth_error (copies k (invocation args g false)) d
            = Some (broadcast_variables v root)) in Hnth.
    apply nth_error_In, in_copies in Hnth.
    simpl in Hnth. decompose [or] Hnth; try discriminate; contradiction. }
  destruct Hcase as [Hd45 ->]. split; [reflexivity |].
  exists (List.length pre + 3)%nat. split; [lia |].
  rewrite nth_error_app2 by lia.
  replace (List.length pre + 3 - List.length pre)%nat with 3%nat by lia.
  reflexivity.
Qed.

Lemma X7_broadcast_after_first_update_witness :
  exists j, (j < 11)%nat /\
    nth_error (trace (fst (run (worker 3 4 [] 2%float) (iterations_of 1 2)))) j
    = Some apply_gradients.
Proof.
  apply (X7_broadcast_after_first_update (worker 3 4 [] 2%float)
           (iterations_of 1 2) 11 model_variables 0).
  vm_compute. reflexivity.
Defined.

(** ** Counting *)

Lemma iter_lines_all_iter args xs vs :
  filter is_iter_line (iter_lines args xs vs) = iter_lines args xs vs.
Proof.
  unfold iter_lines.
  induction (combine xs vs) as [| xv l IH]; simpl; [reflexivity |].
  now rewrite IH.
Qed.

Lemma length_iter_lines args xs vs :
  List.length xs = List.length vs ->
  List.length (iter_lines args xs vs) = List.length vs.
Proof.
  intro H. unfold iter_lines. rewrite length_map, length_combine. lia.
Qed.

(** X8.  A run that ends normally with [--num-iters n] has taken exactly
    [n] samples (none when [n] is negative) and has called [timeit] once
    more than that, the one time more for warm-up; the reporting worker has
    printed exactly [n] per-iteration lines among [7 + n] lines, each ended
    by a newline. *)
Theorem X8_one_line_and_one_sample_per_iteration (env : Env) (args : Args)
    (w' : World) :
  let n := Z.to_nat (num_iters args) in
  run env args = (w', Ok tt) ->
  List.length (img_secs w') = n /\
  timeit_calls w' = S n /\
  (bps_rank env = 0 ->
   List.length (filter is_iter_line (stdout w')) = n /\
   List.length (stdout w') = (7 + n)%nat /\
   Forall (fun p => ending p = newline) (stdout w')).
Proof.
  intro n. rewrite run_extend.
  pose proof (quiet_setup env args initial) as (Ho & Hc & Hs & _).
  destruct (setup env args initial) as [w0 [g | e]]; [| discriminate].
  simpl in Ho, Hc, Hs.
  destruct (measure env args 1 _) as [vs r] eqn:E.
  intros [= <- ->].
  destruct (measure_samples env args _ _ _ _ E) as (_ & _ & Hl).
  specialize (Hl tt eq_refl). rewrite length_range in Hl. fold n in Hl.
  unfold extend. cbn [img_secs stdout timeit_calls]. rewrite Ho, Hc, Hs.
  cbn [app Nat.add]. unfold attempts. rewrite Nat.add_0_r, Hl.
  split; [reflexivity |]. split; [reflexivity |].
  intro Hrank. unfold shown. rewrite Hrank. cbn [Z.eqb]. unfold output.
  assert (Hlen : List.length (iter_lines args (range (num_iters args)) vs) = n).
  { rewrite length_iter_lines; [exact Hl |]. rewrite length_range. now fold n. }
  split; [| split].
  - rewrite !filter_app, iter_lines_all_iter, !length_app, Hlen.
    change (filter is_iter_line (header_lines env args)) with (@nil printed).
    change (filter is_iter_line phase_lines) with (@nil printed).
    change (filter is_iter_line (summary_lines env args vs))
      with (@nil printed).
    simpl. lia.
  - rewrite !length_app, Hlen. simpl. lia.
  - repeat (apply Forall_app; split).
    + repeat constructor.
    + repeat constructor.
    + unfold iter_lines. apply Forall_forall. intros p Hp.
      apply in_map_iff in Hp as (xv & <- & _). reflexivity.
    + repeat constructor.
Qed.

Lemma X8_one_line_and_one_sample_per_iteration_witness :
  List.length (img_secs (fst (run (worker 0 2 [] 2%float) (iterations_of 3 2))))
  = 3%nat /\
  timeit_calls (fst (run (worker 0 2 [] 2%float) (iterations_of 3 2))) = 4%nat.
Proof.
  destruct (X8_one_line_and_one_sample_per_iteration (worker 0 2 [] 2%float)
              (iterations_of 3 2)
              (fst (run (worker 0 2 [] 2%float) (iterations_of 3 2))))
    as (Hs & Hc & _).
  - vm_compute. reflexivity.
  - split; [exact Hs | exact Hc].
Defined.

(** ** No batch in an iteration *)

(** Zero divided by a positive float is zero. *)
Lemma zero_div_positive (t : float) :
  (0 <? t)%float = true -> (0 / t)%float = 0%float.
Proof.
  intro H. apply FloatAxioms.Prim2SF_inj.
  rewrite FloatAxioms.div_spec. rewrite FloatAxioms.ltb_spec in H.
  change (Prim2SF 0%float) with (S754_zero false) in *.
  destruct (Prim2SF t) as [s | s | | s m e]; cbn in H;
    try discriminate H; destruct s; try discriminate H; reflexivity.
Qed.

(** X9.  With [--num-batches-per-iter 0] (and positive times) the run ends
    normally, every timed iteration runs no training step and its sample is
    0.0: the only steps of the run are the first step and the warm-up
    steps. *)
Theorem X9_no_batch_per_iteration (env : Env) (args : Args) (w0 : World)
    (g : Globals) :
  let n := Z.to_nat (num_iters args) in
  setup env args initial = (w0, Ok g) ->
  num_batches_per_iter args = 0 ->
  (forall i, (i < n)%nat -> (0 <? timeit_elapsed env (S i))%float = true) ->
  exists w',
    run env args = (w', Ok tt) /\
    img_secs w' = repeat 0%float n /\
    trace w'
    = trace w0
      ++ enter_device (device args)
         :: invocation args g true
         ++ copies (Z.to_nat (num_warmup_batches args))
                   (invocation args g false).
Proof.
  intros n Hsetup Hzero Hpos.
  assert (Hfin : is_infinity (nearest_float (batch_size args
                                             * num_batches_per_iter args))
                 = false).
  { rewrite Hzero, Z.mul_0_r. reflexivity. }
  rewrite run_extend, Hsetup.
  rewrite (measure_positive env args _ 1 Hfin).
  2:{ rewrite length_range. intros i Hi. apply (Hpos i Hi). }
  rewrite length_range. fold n.
  pose proof (quiet_setup env args initial) as (_ & _ & Hs & _).
  rewrite Hsetup in Hs. simpl in Hs.
  eexists. split; [reflexivity |]. unfold extend.
  cbn [img_secs trace]. rewrite Hs. cbn [app]. split.
  - replace (repeat 0%float n) with (map (fun _ => 0%float) (seq 1 n))
      by now rewrite map_const, length_seq.
    apply map_ext_in. intros k Hk. apply in_seq in Hk.
    unfold img_sec_at. rewrite Hzero, Z.mul_0_r.
    change (nearest_float 0) with 0%float.
    destruct k as [| k]; [lia |]. apply zero_div_positive, Hpos. lia.
  - unfold benchmark_events. rewrite Hzero. cbn [Z.to_nat].
    now rewrite Nat.mul_0_r, Nat.add_0_r.
Qed.

Lemma X9_no_batch_per_iteration_witness :
  exists w',
    run (worker 0 1 [] 2%float) (iterations_of 2 0) = (w', Ok tt) /\
    img_secs w' = [0; 0]%float.
Proof.
  destruct (X9_no_batch_per_iteration (worker 0 1 [] 2%float)
              (iterations_of 2 0)
              (fst (setup (worker 0 1 [] 2%float) (iterations_of 2 0) initial))
              {| the_model := ResNet50;
                 data := Tensor [32; 224; 224; 3] float32 0 None 0;
                 target := Tensor [32; 1] float64 0 (Some 999) 1 |})
    as (w' & Hrun & Hs & _).
  - vm_compute. reflexivity.
  - reflexivity.
  - intros i _. vm_compute. reflexivity.
  - exists w'. split; [exact Hrun | exact Hs].
Defined.
